(** * jam_g19_colors: backlight colour of a Logitech G19 over HID

    A shallow embedding of [jam_g19_colors.py].  The script talks to the
    keyboard through the [pywinusb.hid] package; the package is the
    environment of the program, so a device and its reports are records
    that say how every library call made by the script answers (a value or
    a raised exception).  The script itself is a computation in a small
    monad that threads the observable state (is the device handle open,
    the module-level [verbose] flag) and the chronological list of calls
    and printed lines.

    What the model takes from the environment:
    - an exception raised by a library call is an instance of
      [Exception]; [print], [is_opened()] and [close()] do not raise;
    - [open()] leaves the handle open exactly when it returns;
    - a raw snapshot is a sequence of bytes;
    - [main] starts after [parser.parse_args()] has returned the
      namespace ([argparse] ends the process itself on a bad command
      line). *)

From Stdlib Require Import ZArith String Ascii List Lia.
From Stdlib Require Import DecimalString HexadecimalString.
From Stdlib.Strings Require Import Byte.
From stdpp Require Import base list.

Open Scope string_scope.
Open Scope Z_scope.

(** ** Constants of the module *)

Definition LOGITECH_VENDOR_ID : Z := 0x046d.
Definition G19_PRODUCT_ID : Z := 0xc229.
Definition LIGHTING_REPORT_ID : Z := 7.
Definition RED_BYTE_INDEX : nat := 1.
Definition GREEN_BYTE_INDEX : nat := 2.
Definition BLUE_BYTE_INDEX : nat := 3.

(** ** Exceptions and answers of the library *)

(** A Python exception as the script sees it: [str(e)], and the text of
    [e.winerror] when the attribute exists ([hasattr(e, 'winerror')]).
    Every exception of the model is an instance of [Exception]. *)
Record exn := Exn { exn_str : string; exn_winerror : option string }.

Definition ValueError : exn := Exn "byte must be in range(0, 256)" None.
Definition IndexError : exn := Exn "bytearray index out of range" None.

(** What a call into the library answers. *)
Inductive result (A : Type) : Type :=
| Ok (a : A)
| Err (e : exn).
Arguments Ok {A} a.
Arguments Err {A} e.

(** ** The HID objects handed out by the library *)

(** [report_truth] is the truth value of the object, as [not report]
    tests it (the class supports [len()], so an instance need not be
    true); [report_len] is what [len(report)] answers. *)
Record HidReport := {
  report_id : Z;
  report_truth : bool;
  get_raw_data : result (list byte);
  report_len : result Z;
  send : list byte -> result unit
}.

Record HidDevice := {
  vendor_id : Z;
  product_id : Z;
  product_name : string;
  open : result unit;
  find_feature_reports : result (list HidReport);
  find_output_reports : result (list HidReport);
  find_input_reports : result (list HidReport)
}.

(** The parsed command line ([argparse] namespace). *)
Record Namespace := { arg_r : Z; arg_g : Z; arg_b : Z; arg_inspect : bool }.

(** ** Printed lines *)

Inductive line :=
| LnDeviceFound (name : string) (vid pid : Z)
| LnInspectBegin
| LnFeatureHeader
| LnOutputHeader
| LnInputHeader
| LnReport (rid : Z) (size : nat)
| LnInspectEnd
| LnInspectError (e : exn)
| LnReportNotFound
| LnTryInspect
| LnRawEmpty (report_size : Z)
| LnNoRawNoSize
| LnRawError (e_get : exn)
| LnNoSize
| LnSizeError (e_size : exn)
| LnOffsetsOutOfRange (size : nat)
| LnSending (r g b : Z)
| LnHexDump (buffer : list byte)
| LnSent
| LnSetColorError (e : exn)
| LnWinError (code : string)
| LnSearching
| LnKeyboardFound
| LnTrying (r g b : Z)
| LnConfigured
| LnFailed
| LnNotFound
| LnCheckConnection
| LnCheckIds.

Definition str_int (z : Z) : string :=
  DecimalString.NilZero.string_of_int (Z.to_int z).

Definition str_nat (n : nat) : string :=
  DecimalString.NilZero.string_of_uint (Nat.to_uint n).

(** [hex(n)] for a non-negative [n]. *)
Definition hex (z : Z) : string :=
  "0x" ++ HexadecimalString.NilZero.string_of_uint (N.to_hex_uint (Z.to_N z)).

Definition hex_digit (n : N) : string :=
  HexadecimalString.NilZero.string_of_uint (N.to_hex_uint n).

(** [f'{x:02x}'] *)
Definition hex02 (x : byte) : string :=
  hex_digit (Byte.to_N x / 16) ++ hex_digit (Byte.to_N x mod 16).

(** [' '.join(...)] *)
Fixpoint join (sep : string) (parts : list string) : string :=
  match parts with
  | [] => ""
  | [p] => p
  | p :: rest => p ++ sep ++ join sep rest
  end.

Definition newline : string := String (ascii_of_nat 10) "".

(** The text of each line, as the f-strings of the script build it. *)
Definition render (l : line) : string :=
  match l with
  | LnDeviceFound name vid pid =>
      "Dispositivo encontrado: " ++ name ++ " (Vendor: " ++ hex vid
      ++ ", Product: " ++ hex pid ++ ")"
  | LnInspectBegin => newline ++ "--- Inspección de Informes HID ---"
  | LnFeatureHeader => "Informes de Características (Feature Reports):"
  | LnOutputHeader => "Informes de Salida (Output Reports):"
  | LnInputHeader => "Informes de Entrada (Input Reports):"
  | LnReport rid size =>
      "  ID: " ++ str_int rid ++ ", Tamaño (bytes): " ++ str_nat size
  | LnInspectEnd => "--- Fin Inspección ---" ++ newline
  | LnInspectError e => "Error al inspeccionar informes: " ++ exn_str e
  | LnReportNotFound =>
      "Error: No se encontró el informe HID con ID "
      ++ str_int LIGHTING_REPORT_ID ++ " para controlar la iluminación."
  | LnTryInspect =>
      "Considera ejecutar con --inspect para ver los informes disponibles."
  | LnRawEmpty report_size =>
      "Aviso: get_raw_data() devolvió vacío. Creando buffer de tamaño "
      ++ str_int report_size ++ "."
  | LnNoRawNoSize =>
      "Error: No se pudo obtener datos crudos ni determinar tamaño del informe."
  | LnRawError e_get =>
      "Error obteniendo datos crudos del informe (" ++ exn_str e_get
      ++ "). Intentando crear buffer manualmente."
  | LnNoSize =>
      "Error: No se pudo determinar el tamaño del informe para crear el buffer."
  | LnSizeError e_size =>
      "Error crítico determinando tamaño del informe: " ++ exn_str e_size
  | LnOffsetsOutOfRange size =>
      "Error: Índices de color (" ++ str_nat RED_BYTE_INDEX ++ ", "
      ++ str_nat GREEN_BYTE_INDEX ++ ", " ++ str_nat BLUE_BYTE_INDEX
      ++ ") fuera de los límites del buffer (tamaño " ++ str_nat size ++ ")."
  | LnSending r g b =>
      "Enviando comando de color (R=" ++ str_int r ++ ", G=" ++ str_int g
      ++ ", B=" ++ str_int b ++ ") al informe ID "
      ++ str_int LIGHTING_REPORT_ID ++ "..."
  | LnHexDump buffer =>
      "Buffer a enviar (hex): " ++ join " " (map hex02 buffer)
  | LnSent => "Comando de color enviado."
  | LnSetColorError e =>
      "Error al intentar establecer el color: " ++ exn_str e
  | LnWinError code => "WinError: " ++ code
  | LnSearching => "Buscando teclado Logitech G19..."
  | LnKeyboardFound => "¡Teclado Logitech G19 encontrado!"
  | LnTrying r g b =>
      "Intentando establecer color a R=" ++ str_int r ++ ", G=" ++ str_int g
      ++ ", B=" ++ str_int b ++ "..."
  | LnConfigured => "Color configurado exitosamente."
  | LnFailed => "Falló la configuración del color."
  | LnNotFound => "Teclado Logitech G19 no encontrado."
  | LnCheckConnection =>
      "Asegúrate de que está conectado, encendido (con su adaptador de corriente si lo requiere) y que los drivers están instalados."
  | LnCheckIds =>
      "También verifica que los IDs de Vendedor/Producto (VID/PID) son correctos para tu modelo."
  end.

Close Scope string_scope.

(** ** Observable events and the state of a run *)

(** A call of the script into the library or the interpreter, recorded
    when it is made, whether it then returns or raises: [device.open()],
    [device.close()], the three enumerations of reports, and on the
    report with identifier [rid]: [get_raw_data()], [len(report)] and
    [send(buffer)]; the allocation [bytearray(size)] of a zeroed buffer;
    and [print(l)]. *)
Inductive event :=
| EvOpen
| EvClose
| EvFindFeatureReports
| EvFindOutputReports
| EvFindInputReports
| EvGetRawData (rid : Z)
| EvLen (rid : Z)
| EvBytearray (size : Z)
| EvSend (rid : Z) (buffer : list byte)
| EvPrint (l : line).

(** [opened] is what [device.is_opened()] answers, [verbose] is the
    module-level flag, [trace] lists the events, oldest first. *)
Record world := World {
  opened : bool;
  verbose : bool;
  trace : list event
}.

Definition emit (ev : event) (w : world) : world :=
  World (opened w) (verbose w) (trace w ++ [ev]).

Definition set_opened (o : bool) (w : world) : world :=
  World o (verbose w) (trace w).

(** The state of the interpreter once the module body has run
    ([verbose = False]); no device handle is open. *)
Definition module_init : world := World false false [].

(** ** The monad of Python statements

    A statement either completes ([Normal]), leaves the enclosing function
    through [return] or the process through [sys.exit] ([Returned]), or
    raises ([Raised]).  [Returned] passes through [except Exception]
    handlers and runs the [finally] blocks on its way out, as in Python. *)

Inductive signal (R A : Type) : Type :=
| Normal (a : A)
| Returned (r : R)
| Raised (e : exn).
Arguments Normal {R A} a.
Arguments Returned {R A} r.
Arguments Raised {R A} e.

Definition Py (R A : Type) : Type := world -> signal R A * world.

Definition ret {R A} (a : A) : Py R A := fun w => (Normal a, w).

Definition bind {R A B} (m : Py R A) (k : A -> Py R B) : Py R B :=
  fun w =>
    match m w with
    | (Normal a, w') => k a w'
    | (Returned r, w') => (Returned r, w')
    | (Raised e, w') => (Raised e, w')
    end.

Definition return_ {R A} (r : R) : Py R A := fun w => (Returned r, w).

Definition raise {R A} (e : exn) : Py R A := fun w => (Raised e, w).

Declare Scope py_scope.
Delimit Scope py_scope with py.
Notation "x <~ m ;; k" := (bind m (fun x => k))
  (at level 100, m at next level, right associativity) : py_scope.
Notation "m ;; k" := (bind m (fun _ => k))
  (at level 100, right associativity) : py_scope.
Open Scope py_scope.

(** [try: body  except Exception as e: handler e] *)
Definition try_except {R A} (body : Py R A) (handler : exn -> Py R A) : Py R A :=
  fun w =>
    match body w with
    | (Raised e, w') => handler e w'
    | other => other
    end.

(** [try: body  finally: final]: [final] runs on every way out of [body];
    the way out of [body] stands unless [final] itself returns or raises. *)
Definition try_finally {R A} (body : Py R A) (final : Py R unit) : Py R A :=
  fun w =>
    match body w with
    | (s, w') =>
        match final w' with
        | (Normal _, w'') => (s, w'')
        | (Returned r, w'') => (Returned r, w'')
        | (Raised e, w'') => (Raised e, w'')
        end
    end.

(** A function call: the value of [return] is the value of the call. *)
Definition def {R A} (body : Py A A) : Py R A :=
  fun w =>
    match body w with
    | (Normal a, w') => (Normal a, w')
    | (Returned a, w') => (Normal a, w')
    | (Raised e, w') => (Raised e, w')
    end.

(** A function whose body has no [return]: the call yields [None]. *)
Definition def_none {R} (body : Py unit unit) : Py R unit := def body.

(** ** Primitive statements *)

Definition print {R} (l : line) : Py R unit :=
  fun w => (Normal tt, emit (EvPrint l) w).

(** The answer of a library call, after the call was recorded. *)
Definition answer {R A} (ev : event) (a : result A) : Py R A :=
  fun w =>
    match a with
    | Ok v => (Normal v, emit ev w)
    | Err e => (Raised e, emit ev w)
    end.

(** [device.open()]: the handle is open afterwards unless the call raised. *)
Definition device_open {R} (device : HidDevice) : Py R unit :=
  fun w =>
    match open device with
    | Ok _ => (Normal tt, set_opened true (emit EvOpen w))
    | Err e => (Raised e, emit EvOpen w)
    end.

Definition device_is_opened {R} (device : HidDevice) : Py R bool :=
  fun w => (Normal (opened w), w).

Definition device_close {R} (device : HidDevice) : Py R unit :=
  fun w => (Normal tt, set_opened false (emit EvClose w)).

Definition device_find_feature_reports {R} (device : HidDevice)
  : Py R (list HidReport) :=
  answer EvFindFeatureReports (find_feature_reports device).

Definition device_find_output_reports {R} (device : HidDevice)
  : Py R (list HidReport) :=
  answer EvFindOutputReports (find_output_reports device).

Definition device_find_input_reports {R} (device : HidDevice)
  : Py R (list HidReport) :=
  answer EvFindInputReports (find_input_reports device).

Definition report_get_raw_data {R} (report : HidReport) : Py R (list byte) :=
  answer (EvGetRawData (report_id report)) (get_raw_data report).

(** [len(report)] *)
Definition len_report {R} (report : HidReport) : Py R Z :=
  answer (EvLen (report_id report)) (report_len report).

Definition report_send {R} (report : HidReport) (buffer : list byte)
  : Py R unit :=
  answer (EvSend (report_id report) buffer) (send report buffer).

(** Reading the global [verbose]. *)
Definition get_verbose {R} : Py R bool :=
  fun w => (Normal (verbose w), w).

(** ** Byte arrays *)

(** [bytearray(n)]: a new array of [n] zero bytes. *)
Definition bytearray {R} (n : Z) : Py R (list byte) :=
  fun w => (Normal (replicate (Z.to_nat n) x00), emit (EvBytearray n) w).

(** [bytearray(raw_data)]: a mutable copy of the bytes read from the
    device. *)
Definition bytearray_of {R} (raw_data : list byte) : Py R (list byte) :=
  ret raw_data.

(** The byte with value [v], when [v] is in [range(0, 256)]. *)
Definition byte_of_int (v : Z) : option byte :=
  if (0 <=? v) && (v <? 256) then Byte.of_N (Z.to_N v) else None.

Definition int_of_byte (x : byte) : Z := Z.of_N (Byte.to_N x).

(** [buffer[i] = v]: [IndexError] out of range, [ValueError] when [v] is
    not a byte value; otherwise the array with position [i] replaced. *)
Definition setitem {R} (buffer : list byte) (i : nat) (v : Z)
  : Py R (list byte) :=
  if (i <? length buffer)%nat then
    match byte_of_int v with
    | Some x => ret (<[i:=x]> buffer)
    | None => raise ValueError
    end
  else raise IndexError.

(** Truth value of a sequence of bytes ([if not raw_data]). *)
Definition is_empty (raw_data : list byte) : bool :=
  match raw_data with
  | [] => true
  | _ => false
  end.

(** ** find_g19 *)

(** The test of the loop: the device has the G19's identifiers. *)
Definition is_g19 (device : HidDevice) : bool :=
  (vendor_id device =? LOGITECH_VENDOR_ID)
  && (product_id device =? G19_PRODUCT_ID).

(** The [for device in all_devices] loop; the first device with the G19's
    identifiers is printed and returned. *)
Fixpoint find_g19_loop (all_devices : list HidDevice)
  : Py (option HidDevice) unit :=
  match all_devices with
  | [] => ret tt
  | device :: rest =>
      if is_g19 device then
        print (LnDeviceFound (product_name device) (vendor_id device)
                 (product_id device));;
        return_ (Some device)
      else find_g19_loop rest
  end.

(** [all_devices] is what [hid.find_all_hid_devices()] answers. *)
Definition find_g19 {R} (all_devices : list HidDevice)
  : Py R (option HidDevice) :=
  def (find_g19_loop all_devices;; return_ None).

(** ** inspect_reports *)

(** One [for report in ...: print(...)] loop of the inspection. *)
Fixpoint print_reports {R} (reports : list HidReport) : Py R unit :=
  match reports with
  | [] => ret tt
  | report :: rest =>
      raw_data <~ report_get_raw_data report;;
      print (LnReport (report_id report) (length raw_data));;
      print_reports rest
  end.

Definition close_if_opened {R} (device : HidDevice) : Py R unit :=
  is_opened <~ device_is_opened device;;
  if is_opened then device_close device else ret tt.

Definition inspect_reports {R} (device : HidDevice) : Py R unit :=
  def_none
    (try_finally
       (try_except
          (device_open device;;
           print LnInspectBegin;;
           print LnFeatureHeader;;
           reports <~ device_find_feature_reports device;;
           print_reports reports;;
           print LnOutputHeader;;
           reports <~ device_find_output_reports device;;
           print_reports reports;;
           print LnInputHeader;;
           reports <~ device_find_input_reports device;;
           print_reports reports;;
           print LnInspectEnd)
          (fun e => print (LnInspectError e)))
       (close_if_opened device)).

(** ** set_color *)

(** The search loop over the feature reports, with its [break]. *)
Fixpoint search_report (feature_reports : list HidReport)
    (target_report : option HidReport) : option HidReport :=
  match feature_reports with
  | [] => target_report
  | report :: rest =>
      if report_id report =? LIGHTING_REPORT_ID then Some report
      else search_report rest target_report
  end.

(** The inner [try]: the buffer to patch, from the raw snapshot or
    allocated from the declared length. *)
Definition resolve_buffer (target_report : HidReport) : Py bool (list byte) :=
  try_except
    (raw_data <~ report_get_raw_data target_report;;
     if is_empty raw_data then
       report_size <~ len_report target_report;;
       if 0 <? report_size then
         print (LnRawEmpty report_size);;
         buffer <~ bytearray report_size;;
         setitem buffer 0 LIGHTING_REPORT_ID
       else
         print LnNoRawNoSize;;
         return_ false
     else bytearray_of raw_data)
    (fun e_get =>
       print (LnRawError e_get);;
       try_except
         (report_size <~ len_report target_report;;
          if report_size <=? 0 then
            print LnNoSize;;
            return_ false
          else
            buffer <~ bytearray report_size;;
            setitem buffer 0 LIGHTING_REPORT_ID)
         (fun e_size =>
            print (LnSizeError e_size);;
            return_ false)).

(** The bounds test on the three offsets and the three assignments. *)
Definition write_colors (buffer : list byte) (r g b : Z)
  : Py bool (list byte) :=
  if (RED_BYTE_INDEX <? length buffer)%nat
     && (GREEN_BYTE_INDEX <? length buffer)%nat
     && (BLUE_BYTE_INDEX <? length buffer)%nat
  then
    buffer <~ setitem buffer RED_BYTE_INDEX r;;
    buffer <~ setitem buffer GREEN_BYTE_INDEX g;;
    setitem buffer BLUE_BYTE_INDEX b
  else
    print (LnOffsetsOutOfRange (length buffer));;
    return_ false.

(** [if verbose: print(...); print(...)] *)
Definition dump_if_verbose (buffer : list byte) (r g b : Z) : Py bool unit :=
  verbose <~ get_verbose;;
  if verbose then
    print (LnSending r g b);;
    print (LnHexDump buffer)
  else ret tt.

(** The statements of the outer [try] after the report was found. *)
Definition patch_and_send (target_report : HidReport) (r g b : Z)
  : Py bool bool :=
  buffer <~ resolve_buffer target_report;;
  buffer <~ write_colors buffer r g b;;
  dump_if_verbose buffer r g b;;
  report_send target_report buffer;;
  print LnSent;;
  return_ true.

(** The branch taken when [not target_report] holds. *)
Definition report_not_found : Py bool bool :=
  print LnReportNotFound;;
  print LnTryInspect;;
  return_ false.

(** The body of the outer [try].  [not target_report] holds for [None]
    and for a report object whose truth value is false. *)
Definition set_color_body (device : HidDevice) (r g b : Z) : Py bool bool :=
  device_open device;;
  feature_reports <~ device_find_feature_reports device;;
  match search_report feature_reports None with
  | None => report_not_found
  | Some target_report =>
      if negb (report_truth target_report) then report_not_found
      else patch_and_send target_report r g b
  end.

Definition set_color_except (e : exn) : Py bool bool :=
  print (LnSetColorError e);;
  match exn_winerror e with
  | Some code => print (LnWinError code)
  | None => ret tt
  end;;
  return_ false.

Definition set_color {R} (device : HidDevice) (r g b : Z) : Py R bool :=
  def
    (try_finally
       (try_except (set_color_body device r g b) set_color_except)
       (close_if_opened device)).

(** ** main *)

(** [sys.exit(status)]: [SystemExit] is no [Exception]; it leaves the
    process with [status]. *)
Definition sys_exit {A} (status : Z) : Py Z A := return_ status.

(** The statements of [main] after [parser.parse_args()] gave [args];
    [all_devices] is the host's answer to the enumeration. *)
Definition main (all_devices : list HidDevice) (args : Namespace) : Py Z unit :=
  print LnSearching;;
  g19_device <~ find_g19 all_devices;;
  match g19_device with
  | Some g19_device =>
      print LnKeyboardFound;;
      (if arg_inspect args then
         inspect_reports g19_device;;
         sys_exit 0
       else ret tt);;
      print (LnTrying (arg_r args) (arg_g args) (arg_b args));;
      success <~ set_color g19_device (arg_r args) (arg_g args) (arg_b args);;
      if success then
        print LnConfigured;;
        sys_exit 0
      else
        print LnFailed;;
        sys_exit 1
  | None =>
      print LnNotFound;;
      print LnCheckConnection;;
      print LnCheckIds;;
      sys_exit 1
  end.

(** The exit status of the process for the way [main] ended: the argument
    of [sys.exit]; 1 for an uncaught exception; 0 when the script runs to
    its end. *)
Definition exit_status (s : signal Z unit) : Z :=
  match s with
  | Returned status => status
  | Raised _ => 1
  | Normal _ => 0
  end.

(** A run of the script: module body, then [main()]. *)
Definition run (all_devices : list HidDevice) (args : Namespace)
  : Z * world :=
  let '(s, w) := main all_devices args module_init in (exit_status s, w).

(** ** Example devices *)

Definition io_error : exn :=
  Exn "The device is not connected" (Some "1167"%string).

Definition snapshot32 : list byte := x07 :: replicate 31 x00.

(** A lighting report with a live 32-byte snapshot. *)
Definition live_report : HidReport :=
  {| report_id := 7; report_truth := true; get_raw_data := Ok snapshot32;
     report_len := Ok 32; send := fun _ => Ok tt |}.

(** The same report on a device that refuses the transfer. *)
Definition refused_report : HidReport :=
  {| report_id := 7; report_truth := true; get_raw_data := Ok snapshot32;
     report_len := Ok 32; send := fun _ => Err io_error |}.

(** A lighting report whose snapshot has three bytes only. *)
Definition short_report : HidReport :=
  {| report_id := 7; report_truth := true;
     get_raw_data := Ok [x07; x00; x00];
     report_len := Ok 3; send := fun _ => Ok tt |}.

(** A lighting report that cannot be read and declares no length. *)
Definition blind_report : HidReport :=
  {| report_id := 7; report_truth := true; get_raw_data := Err io_error;
     report_len := Ok 0; send := fun _ => Ok tt |}.

Definition other_report : HidReport :=
  {| report_id := 3; report_truth := true; get_raw_data := Ok [x03; x00];
     report_len := Ok 2; send := fun _ => Ok tt |}.

(** A keyboard with the given feature reports. *)
Definition g19 (feature_reports : list HidReport) : HidDevice :=
  {| vendor_id := 0x046d; product_id := 0xc229;
     product_name := "G19 Gaming Keyboard";
     open := Ok tt;
     find_feature_reports := Ok feature_reports;
     find_output_reports := Ok [];
     find_input_reports := Ok [] |}.

(** A keyboard that opens but fails every enumeration of its reports. *)
Definition g19_mute : HidDevice :=
  {| vendor_id := 0x046d; product_id := 0xc229;
     product_name := "G19 Gaming Keyboard";
     open := Ok tt;
     find_feature_reports := Err io_error;
     find_output_reports := Err io_error;
     find_input_reports := Err io_error |}.

Definition mouse : HidDevice :=
  {| vendor_id := 0x046d; product_id := 0xc52b;
     product_name := "USB Receiver";
     open := Ok tt;
     find_feature_reports := Ok [];
     find_output_reports := Ok [];
     find_input_reports := Ok [] |}.

(** * Properties *)

(** ** Vocabulary: reading a trace, outcomes of the blocks of [set_color] *)

(** The event is a [device.close()] / a [device.open()]. *)
Definition is_close (ev : event) : bool :=
  match ev with
  | EvClose => true
  | _ => false
  end.

Definition is_open (ev : event) : bool :=
  match ev with
  | EvOpen => true
  | _ => false
  end.

(** How often [device.close()] / [device.open()] was called. *)
Definition closes (t : list event) : nat := length (List.filter is_close t).
Definition opens (t : list event) : nat := length (List.filter is_open t).

(** The buffers handed to [report.send], oldest first. *)
Definition sends (t : list event) : list (Z * list byte) :=
  omap (fun ev =>
          match ev with
          | EvSend rid buffer => Some (rid, buffer)
          | _ => None
          end) t.

(** The sizes given to [bytearray(size)]. *)
Definition allocations (t : list event) : list Z :=
  omap (fun ev =>
          match ev with
          | EvBytearray size => Some size
          | _ => None
          end) t.

(** The lines of the verbose branch of [set_color]. *)
Definition is_verbose_line (l : line) : bool :=
  match l with
  | LnSending _ _ _ | LnHexDump _ => true
  | _ => false
  end.

(** No line of the verbose branch is printed in [t]. *)
Definition no_verbose_line (t : list event) : Prop :=
  forall l, In (EvPrint l) t -> is_verbose_line l = false.

(** What the body of a [try] does once the device is open: no [open()],
    no [close()], and a verbose line only when [verbose] is set. *)
Definition body_event (verbose : bool) (ev : event) : bool :=
  match ev with
  | EvOpen | EvClose => false
  | EvPrint l => verbose || negb (is_verbose_line l)
  | _ => true
  end.

(** [m] leaves the handle and the flag alone and emits body events. *)
Definition emits {R A} (m : Py R A) : Prop :=
  forall w, exists t,
    snd (m w) = World (opened w) (verbose w) (trace w ++ t)
    /\ forallb (body_event (verbose w)) t = true.

(** The handle is open when the [finally] block starts: [open()] went
    through, or it raised on a handle that was open before. *)
Definition handle_open_at_exit (device : HidDevice) (w : world) : bool :=
  match open device with
  | Ok _ => true
  | Err _ => opened w
  end.

(** A call that started in [w] and ended in [w'] closed the handle once,
    as its last action, if it was open, and not at all otherwise. *)
Definition closed_once_at_exit (device : HidDevice) (w w' : world) : Prop :=
  exists t,
    trace w' = trace w ++ t /\ opened w' = false /\
    if handle_open_at_exit device w
    then exists t', t = t' ++ [EvClose] /\ closes t' = 0%nat
    else closes t = 0%nat.

(** The buffer of the allocate-and-tag fallback for a declared length. *)
Definition fresh_buffer (report_size : Z) : list byte :=
  <[0%nat := x07]> (replicate (Z.to_nat report_size) x00).

(** [resolved target s t]: the buffer resolution for [target] ends with
    [s] after emitting [t]. *)
Inductive resolved (target : HidReport)
  : signal bool (list byte) -> list event -> Prop :=
| res_live x raw :
    get_raw_data target = Ok (x :: raw) ->
    resolved target (Normal (x :: raw)) [EvGetRawData (report_id target)]
| res_empty_fresh n :
    get_raw_data target = Ok [] -> report_len target = Ok n -> 0 < n ->
    resolved target (Normal (fresh_buffer n))
      [EvGetRawData (report_id target); EvLen (report_id target);
       EvPrint (LnRawEmpty n); EvBytearray n]
| res_empty_no_size n :
    get_raw_data target = Ok [] -> report_len target = Ok n -> n <= 0 ->
    resolved target (Returned false)
      [EvGetRawData (report_id target); EvLen (report_id target);
       EvPrint LnNoRawNoSize]
| res_empty_len_raises e :
    get_raw_data target = Ok [] -> report_len target = Err e ->
    resolved target (Returned false)
      [EvGetRawData (report_id target); EvLen (report_id target);
       EvPrint (LnRawError e); EvLen (report_id target);
       EvPrint (LnSizeError e)]
| res_error_fresh e_get n :
    get_raw_data target = Err e_get -> report_len target = Ok n -> 0 < n ->
    resolved target (Normal (fresh_buffer n))
      [EvGetRawData (report_id target); EvPrint (LnRawError e_get);
       EvLen (report_id target); EvBytearray n]
| res_error_no_size e_get n :
    get_raw_data target = Err e_get -> report_len target = Ok n -> n <= 0 ->
    resolved target (Returned false)
      [EvGetRawData (report_id target); EvPrint (LnRawError e_get);
       EvLen (report_id target); EvPrint LnNoSize]
| res_error_len_raises e_get e_size :
    get_raw_data target = Err e_get -> report_len target = Err e_size ->
    resolved target (Returned false)
      [EvGetRawData (report_id target); EvPrint (LnRawError e_get);
       EvLen (report_id target); EvPrint (LnSizeError e_size)].

(** The buffer after [buffer[1] = r; buffer[2] = g; buffer[3] = b]. *)
Definition patch (buffer : list byte) (xr xg xb : byte) : list byte :=
  <[BLUE_BYTE_INDEX:=xb]>
    (<[GREEN_BYTE_INDEX:=xg]> (<[RED_BYTE_INDEX:=xr]> buffer)).

(** [written buffer r g b s t]: the bounds test and the assignments on
    [buffer] end with [s] after emitting [t]. *)
Inductive written (buffer : list byte) (r g b : Z)
  : signal bool (list byte) -> list event -> Prop :=
| wr_patched xr xg xb :
    (3 < length buffer)%nat ->
    byte_of_int r = Some xr -> byte_of_int g = Some xg ->
    byte_of_int b = Some xb ->
    written buffer r g b (Normal (patch buffer xr xg xb)) []
| wr_value_error :
    (3 < length buffer)%nat ->
    byte_of_int r = None \/ byte_of_int g = None \/ byte_of_int b = None ->
    written buffer r g b (Raised ValueError) []
| wr_out_of_range :
    (length buffer <= 3)%nat ->
    written buffer r g b (Returned false)
      [EvPrint (LnOffsetsOutOfRange (length buffer))].

(** What the verbose branch prints. *)
Definition dump (verbose : bool) (buffer : list byte) (r g b : Z)
  : list event :=
  if verbose then [EvPrint (LnSending r g b); EvPrint (LnHexDump buffer)]
  else [].

(** [patched target r g b verbose s t]: with the flag at [verbose], the
    statements from the buffer resolution to the final [return True] end
    with [s] after emitting [t]. *)
Inductive patched (target : HidReport) (r g b : Z) (verbose : bool)
  : signal bool bool -> list event -> Prop :=
| pa_no_buffer t :
    resolved target (Returned false) t ->
    patched target r g b verbose (Returned false) t
| pa_out_of_range buffer t :
    resolved target (Normal buffer) t ->
    (length buffer <= 3)%nat ->
    patched target r g b verbose (Returned false)
      (t ++ [EvPrint (LnOffsetsOutOfRange (length buffer))])
| pa_value_error buffer t :
    resolved target (Normal buffer) t ->
    (3 < length buffer)%nat ->
    byte_of_int r = None \/ byte_of_int g = None \/ byte_of_int b = None ->
    patched target r g b verbose (Raised ValueError) t
| pa_send_raises buffer t xr xg xb e :
    resolved target (Normal buffer) t ->
    (3 < length buffer)%nat ->
    byte_of_int r = Some xr -> byte_of_int g = Some xg ->
    byte_of_int b = Some xb ->
    send target (patch buffer xr xg xb) = Err e ->
    patched target r g b verbose (Raised e)
      (t ++ dump verbose (patch buffer xr xg xb) r g b
       ++ [EvSend (report_id target) (patch buffer xr xg xb)])
| pa_sent buffer t xr xg xb :
    resolved target (Normal buffer) t ->
    (3 < length buffer)%nat ->
    byte_of_int r = Some xr -> byte_of_int g = Some xg ->
    byte_of_int b = Some xb ->
    send target (patch buffer xr xg xb) = Ok tt ->
    patched target r g b verbose (Returned true)
      (t ++ dump verbose (patch buffer xr xg xb) r g b
       ++ [EvSend (report_id target) (patch buffer xr xg xb);
           EvPrint LnSent]).

(** What the outer [except] block prints for [e]. *)
Definition except_lines (e : exn) : list event :=
  EvPrint (LnSetColorError e)
  :: match exn_winerror e with
     | Some code => [EvPrint (LnWinError code)]
     | None => []
     end.

(** [set_color_outcome device r g b o v success t]: called with the handle
    in state [o] and the flag [v], [set_color] returns [success] after
    emitting [t]. *)
Inductive set_color_outcome (device : HidDevice) (r g b : Z) (o v : bool)
  : bool -> list event -> Prop :=
| sc_open_raises e :
    open device = Err e ->
    set_color_outcome device r g b o v false
      ([EvOpen] ++ except_lines e ++ (if o then [EvClose] else []))
| sc_find_raises e :
    open device = Ok tt ->
    find_feature_reports device = Err e ->
    set_color_outcome device r g b o v false
      ([EvOpen; EvFindFeatureReports] ++ except_lines e ++ [EvClose])
| sc_no_report reports :
    open device = Ok tt ->
    find_feature_reports device = Ok reports ->
    search_report reports None = None ->
    set_color_outcome device r g b o v false
      [EvOpen; EvFindFeatureReports; EvPrint LnReportNotFound;
       EvPrint LnTryInspect; EvClose]
| sc_false_report reports target :
    open device = Ok tt ->
    find_feature_reports device = Ok reports ->
    search_report reports None = Some target ->
    report_truth target = false ->
    set_color_outcome device r g b o v false
      [EvOpen; EvFindFeatureReports; EvPrint LnReportNotFound;
       EvPrint LnTryInspect; EvClose]
| sc_returned reports target success t :
    open device = Ok tt ->
    find_feature_reports device = Ok reports ->
    search_report reports None = Some target ->
    report_truth target = true ->
    patched target r g b v (Returned success) t ->
    set_color_outcome device r g b o v success
      ([EvOpen; EvFindFeatureReports] ++ t ++ [EvClose])
| sc_raised reports target e t :
    open device = Ok tt ->
    find_feature_reports device = Ok reports ->
    search_report reports None = Some target ->
    report_truth target = true ->
    patched target r g b v (Raised e) t ->
    set_color_outcome device r g b o v false
      ([EvOpen; EvFindFeatureReports] ++ t ++ except_lines e ++ [EvClose]).

(** What [main] printed when it has found [device]. *)
Definition found_lines (device : HidDevice) : list event :=
  [EvPrint LnSearching;
   EvPrint (LnDeviceFound (product_name device) (vendor_id device)
              (product_id device));
   EvPrint LnKeyboardFound].

(** The state in which [main] calls [set_color]. *)
Definition at_set_color_call (device : HidDevice) (args : Namespace)
    (w : world) : world :=
  World (opened w) (verbose w)
    (trace w ++ found_lines device
     ++ [EvPrint (LnTrying (arg_r args) (arg_g args) (arg_b args))]).

(** An event other than a line of the verbose branch. *)
Definition quiet_event (ev : event) : bool :=
  match ev with
  | EvPrint l => negb (is_verbose_line l)
  | _ => true
  end.

(** What an inspection loop emits for reports that can all be read. *)
Definition listing (reports : list HidReport) : list event :=
  flat_map (fun report =>
              match get_raw_data report with
              | Ok raw_data =>
                  [EvGetRawData (report_id report);
                   EvPrint (LnReport (report_id report) (length raw_data))]
              | Err _ => []
              end) reports.

Definition readable (report : HidReport) : Prop :=
  exists raw_data, get_raw_data report = Ok raw_data.

(** ** Traces *)

Lemma closes_app t1 t2 : closes (t1 ++ t2) = (closes t1 + closes t2)%nat.
Proof. unfold closes. now rewrite List.filter_app, length_app. Qed.

Lemma sends_app t1 t2 : sends (t1 ++ t2) = sends t1 ++ sends t2.
Proof. apply omap_app. Qed.

Lemma allocations_app t1 t2 :
  allocations (t1 ++ t2) = allocations t1 ++ allocations t2.
Proof. apply omap_app. Qed.

Lemma body_closes v t : forallb (body_event v) t = true -> closes t = 0%nat.
Proof.
  induction t as [|ev t IH]; [reflexivity|].
  cbn [forallb]. intros [Hev Ht]%andb_prop.
  change (ev :: t) with ([ev] ++ t). rewrite closes_app, (IH Ht).
  destruct ev; try discriminate; reflexivity.
Qed.

(** ** The monad's statements emit what their parts emit *)

Lemma world_eta w : World (opened w) (verbose w) (trace w) = w.
Proof. now destruct w. Qed.

Lemma emits_nothing {R A} (s : signal R A) : emits (fun w => (s, w)).
Proof.
  intros w. exists []. cbn [snd]. now rewrite app_nil_r, world_eta.
Qed.

Lemma emits_one {R A} (s : signal R A) ev :
  (forall v, body_event v ev = true) ->
  emits (fun w => (s, emit ev w)).
Proof. intros Hev w. exists [ev]. cbn. now rewrite Hev. Qed.

Lemma emits_ret {R A} (a : A) : emits (ret (R:=R) a).
Proof. apply emits_nothing. Qed.

Lemma emits_return {R A} (r : R) : emits (return_ (A:=A) r).
Proof. apply emits_nothing. Qed.

Lemma emits_raise {R A} e : emits (raise (R:=R) (A:=A) e).
Proof. apply emits_nothing. Qed.

Lemma emits_print {R} l : is_verbose_line l = false -> emits (print (R:=R) l).
Proof.
  intros Hl. apply emits_one. intros v. cbn. rewrite Hl. apply orb_true_r.
Qed.

Lemma emits_answer {R A} ev (a : result A) :
  (forall v, body_event v ev = true) -> emits (answer (R:=R) ev a).
Proof.
  intros Hev w. exists [ev]. unfold answer. cbn [forallb]. rewrite Hev.
  destruct a; auto.
Qed.

Lemma emits_bytearray {R} n : emits (bytearray (R:=R) n).
Proof. apply emits_one. reflexivity. Qed.

Lemma emits_setitem {R} buffer i v : emits (setitem (R:=R) buffer i v).
Proof.
  unfold setitem. destruct (_ <? _)%nat; [destruct (byte_of_int v)|];
    apply emits_nothing.
Qed.

Lemma emits_bind {R A B} (m : Py R A) (k : A -> Py R B) :
  emits m -> (forall a, emits (k a)) -> emits (bind m k).
Proof.
  intros Hm Hk w. unfold bind. destruct (Hm w) as (t & Hw & Ht).
  destruct (m w) as [[a|r|e] w1]; cbn [snd] in *; subst w1; eauto.
  destruct (Hk a (World (opened w) (verbose w) (trace w ++ t)))
    as (t' & Hw' & Ht').
  cbn [opened verbose trace] in *.
  exists (t ++ t'). rewrite Hw', forallb_app, Ht, Ht'.
  now rewrite app_assoc.
Qed.

Lemma emits_try_except {R A} (body : Py R A) handler :
  emits body -> (forall e, emits (handler e)) ->
  emits (try_except body handler).
Proof.
  intros Hm Hk w. unfold try_except. destruct (Hm w) as (t & Hw & Ht).
  destruct (body w) as [[a|r|e] w1]; cbn [snd] in *; subst w1; eauto.
  destruct (Hk e (World (opened w) (verbose w) (trace w ++ t)))
    as (t' & Hw' & Ht').
  cbn [opened verbose trace] in *.
  exists (t ++ t'). rewrite Hw', forallb_app, Ht, Ht'.
  now rewrite app_assoc.
Qed.

(** Applies the lemmas above along the syntax of a statement. *)
Ltac emits_step :=
  first
    [ apply emits_ret | apply emits_return | apply emits_raise
    | apply emits_print; reflexivity
    | apply emits_answer; reflexivity
    | apply emits_bytearray | apply emits_setitem
    | apply emits_bind; [|intros ?]
    | apply emits_try_except; [|intros ?]
    | match goal with
      | |- emits (if ?c then _ else _) => destruct c
      | |- emits (match ?x with _ => _ end) => destruct x
      end ].

Ltac emits_auto := repeat emits_step.

Lemma emits_print_reports {R} reports : emits (print_reports (R:=R) reports).
Proof.
  induction reports as [|report rest IH]; cbn [print_reports].
  - apply emits_ret.
  - unfold report_get_raw_data. emits_auto. exact IH.
Qed.

Lemma emits_resolve_buffer target : emits (resolve_buffer target).
Proof.
  unfold resolve_buffer, report_get_raw_data, len_report, bytearray_of.
  emits_auto.
Qed.

Lemma emits_write_colors buffer r g b : emits (write_colors buffer r g b).
Proof. unfold write_colors. emits_auto. Qed.

Lemma emits_dump_if_verbose buffer r g b :
  emits (dump_if_verbose buffer r g b).
Proof.
  intros [o v t]. unfold dump_if_verbose, get_verbose, bind, print, ret, emit.
  destruct v; cbn [snd opened verbose trace].
  - exists [EvPrint (LnSending r g b); EvPrint (LnHexDump buffer)].
    now rewrite <- app_assoc.
  - exists []. now rewrite app_nil_r.
Qed.

Lemma emits_patch_and_send target r g b : emits (patch_and_send target r g b).
Proof.
  unfold patch_and_send, report_send.
  apply emits_bind; [apply emits_resolve_buffer|intros buffer].
  apply emits_bind; [apply emits_write_colors|intros buffer'].
  apply emits_bind; [apply emits_dump_if_verbose|intros _].
  emits_auto.
Qed.

Lemma emits_set_color_except e : emits (set_color_except e).
Proof. unfold set_color_except. emits_auto. Qed.

(** ** The shape of a call of [set_color] and of [inspect_reports] *)

Lemma emits_search_and_patch device r g b :
  emits (feature_reports <~ device_find_feature_reports device;;
         match search_report feature_reports None with
         | None => report_not_found
         | Some target_report =>
             if negb (report_truth target_report) then report_not_found
             else patch_and_send target_report r g b
         end).
Proof.
  unfold device_find_feature_reports, report_not_found.
  apply emits_bind; [emits_auto|intros reports].
  destruct (search_report reports None) as [target|]; [|emits_auto].
  destruct (negb (report_truth target)); [emits_auto|].
  apply emits_patch_and_send.
Qed.

(** The closing step of both functions. *)
Lemma close_if_opened_run R device o v t :
  close_if_opened (R:=R) device (World o v t)
  = (Normal tt, World false v (t ++ (if o then [EvClose] else []))).
Proof.
  unfold close_if_opened, bind, device_is_opened, device_close, ret, emit,
    set_opened.
  destruct o; cbn; [reflexivity|now rewrite app_nil_r].
Qed.

(** [set_color] always returns a boolean; it calls [open()], then emits
    body events, then closes the handle if it is open. *)
Lemma set_color_shape R device r g b w :
  exists success t,
    set_color (R:=R) device r g b w
    = (Normal success,
       World false (verbose w)
         (trace w ++ [EvOpen] ++ t
          ++ (if handle_open_at_exit device w then [EvClose] else [])))
    /\ forallb (body_event (verbose w)) t = true.
Proof.
  destruct w as [o v t0].
  unfold set_color, def, try_finally, try_except, set_color_body,
    handle_open_at_exit.
  unfold bind at 1. unfold device_open.
  destruct (open device) as [[]|e]; unfold emit, set_opened; cbn [opened verbose trace].
  - match goal with
    | |- context [bind ?m ?k ?w1] =>
        destruct (emits_search_and_patch device r g b w1) as (t & Hw & Ht);
        destruct (bind m k w1) as [[a|a|e] w2]
    end; unfold emit, set_opened in *; cbn [snd opened verbose trace] in *; subst w2.
    + exists a, t. rewrite close_if_opened_run, <- !app_assoc. auto.
    + exists a, t. rewrite close_if_opened_run, <- !app_assoc. auto.
    + match goal with
      | |- context [set_color_except e ?w1] =>
          destruct (emits_set_color_except e w1) as (t' & Hw' & Ht');
          assert (Hs : fst (set_color_except e w1) = Returned false)
            by (unfold set_color_except, bind, print, return_;
                destruct (exn_winerror e); reflexivity);
          destruct (set_color_except e w1) as [s w2]
      end; unfold emit, set_opened in *; cbn [fst snd opened verbose trace] in *; subst s w2.
      exists false, (t ++ t').
      rewrite close_if_opened_run, forallb_app, Ht, Ht', <- !app_assoc. auto.
  - match goal with
    | |- context [set_color_except e ?w1] =>
        destruct (emits_set_color_except e w1) as (t' & Hw' & Ht');
        assert (Hs : fst (set_color_except e w1) = Returned false)
          by (unfold set_color_except, bind, print, return_;
              destruct (exn_winerror e); reflexivity);
        destruct (set_color_except e w1) as [s w2]
    end; unfold emit, set_opened in *; cbn [fst snd opened verbose trace] in *; subst s w2.
    exists false, t'.
    rewrite close_if_opened_run, <- !app_assoc. auto.
Qed.

(** [inspect_reports] always returns [None]; same shape as above. *)
Lemma inspect_reports_shape R device w :
  exists t,
    inspect_reports (R:=R) device w
    = (Normal tt,
       World false (verbose w)
         (trace w ++ [EvOpen] ++ t
          ++ (if handle_open_at_exit device w then [EvClose] else [])))
    /\ forallb (body_event (verbose w)) t = true.
Proof.
  destruct w as [o v t0].
  unfold inspect_reports, def_none, def, try_finally, try_except,
    handle_open_at_exit.
  unfold bind at 1. unfold device_open.
  destruct (open device) as [[]|e]; unfold emit, set_opened; cbn [opened verbose trace].
  - match goal with
    | |- context [bind ?m ?k ?w1] =>
        assert (Hbody : emits (bind m k))
          by (unfold device_find_feature_reports, device_find_output_reports,
                device_find_input_reports;
              repeat first [apply emits_print_reports | emits_step]);
        destruct (Hbody w1) as (t & Hw & Ht);
        destruct (bind m k w1) as [[[]|[]|e] w2]
    end; unfold emit, set_opened in *; cbn [snd opened verbose trace] in *; subst w2.
    + exists t. rewrite close_if_opened_run, <- !app_assoc. auto.
    + exists t. rewrite close_if_opened_run, <- !app_assoc. auto.
    + exists (t ++ [EvPrint (LnInspectError e)]).
      unfold print, emit. cbn [opened verbose trace].
      rewrite close_if_opened_run, forallb_app, Ht, <- !app_assoc.
      cbn. now rewrite orb_true_r.
  - exists [EvPrint (LnInspectError e)].
    unfold print, emit. cbn [opened verbose trace].
    rewrite close_if_opened_run, <- !app_assoc.
    cbn. now rewrite orb_true_r.
Qed.

(** ** Bytes and assignments *)

Lemma byte_of_int_Some v x :
  byte_of_int v = Some x -> int_of_byte x = v /\ 0 <= v < 256.
Proof.
  unfold byte_of_int, int_of_byte.
  destruct (0 <=? v) eqn:Hlo; [|discriminate].
  destruct (v <? 256) eqn:Hhi; [|discriminate].
  cbn [andb]. intros Hx%Byte.to_of_N. rewrite Hx. lia.
Qed.

Lemma byte_of_int_in_range v :
  0 <= v < 256 -> exists x, byte_of_int v = Some x /\ int_of_byte x = v.
Proof.
  intros Hv. destruct (byte_of_int v) as [x|] eqn:Hx.
  - exists x. split; [reflexivity|]. now apply byte_of_int_Some.
  - exfalso. unfold byte_of_int in Hx.
    destruct (0 <=? v) eqn:Hlo; [|lia].
    destruct (v <? 256) eqn:Hhi; [|lia].
    cbn [andb] in Hx. apply Byte.of_N_None_iff in Hx. lia.
Qed.

Lemma setitem_in_range R buffer i v w :
  (i < length buffer)%nat ->
  setitem (R:=R) buffer i v w
  = match byte_of_int v with
    | Some x => (Normal (<[i:=x]> buffer), w)
    | None => (Raised ValueError, w)
    end.
Proof.
  intros Hi%Nat.ltb_lt. unfold setitem. rewrite Hi.
  now destruct (byte_of_int v).
Qed.

Lemma length_fresh_buffer n : length (fresh_buffer n) = Z.to_nat n.
Proof. unfold fresh_buffer. now rewrite length_insert, length_replicate. Qed.

(** Allocate and tag: [bytearray(n)] followed by [buffer[0] = 7]. *)
Lemma setitem_fresh R n w :
  0 < n ->
  setitem (R:=R) (replicate (Z.to_nat n) x00) 0 LIGHTING_REPORT_ID w
  = (Normal (fresh_buffer n), w).
Proof.
  intros Hn. rewrite setitem_in_range; [reflexivity|].
  rewrite length_replicate. lia.
Qed.

Lemma fresh_buffer_tag n : 0 < n -> fresh_buffer n !! 0%nat = Some x07.
Proof.
  intros Hn. unfold fresh_buffer. apply list_lookup_insert_eq.
  rewrite length_replicate. lia.
Qed.

(** ** The outcomes of the inner [try] *)

(** Closes an equation between two worlds that differ in how the trace
    is bracketed. *)
Ltac trace_eq :=
  unfold emit, set_opened; cbn [opened verbose trace];
  rewrite <- ?app_assoc; reflexivity.

Lemma resolve_buffer_resolved target w :
  exists s t,
    resolve_buffer target w = (s, World (opened w) (verbose w) (trace w ++ t))
    /\ resolved target s t.
Proof.
  destruct w as [o v t0].
  unfold resolve_buffer, try_except, report_get_raw_data, len_report.
  unfold bind at 1 4. unfold answer at 1.
  destruct (get_raw_data target) as [[|x raw]|e_get] eqn:Hraw;
    cbn [is_empty emit opened verbose trace].
  - unfold bind at 1 6. unfold answer.
    destruct (report_len target) as [n|e] eqn:Hlen;
      cbn [emit opened verbose trace].
    + destruct (0 <? n) eqn:Hn.
      * apply Z.ltb_lt in Hn.
        unfold bind, print, bytearray. cbn [emit opened verbose trace].
        rewrite setitem_fresh by assumption.
        do 2 eexists. split; [trace_eq|eapply res_empty_fresh; eassumption].
      * apply Z.ltb_ge in Hn.
        unfold bind, print, return_. cbn [emit opened verbose trace].
        do 2 eexists. split; [trace_eq|eapply res_empty_no_size; eassumption].
    + unfold bind, print, return_. cbn [emit opened verbose trace].
      do 2 eexists. split; [trace_eq|eapply res_empty_len_raises; eassumption].
  - unfold bytearray_of, ret.
    do 2 eexists. split; [trace_eq|eapply res_live; eassumption].
  - unfold bind at 1. unfold print at 1. unfold bind at 1 3. unfold answer.
    destruct (report_len target) as [n|e] eqn:Hlen;
      cbn [emit opened verbose trace].
    + destruct (n <=? 0) eqn:Hn.
      * apply Z.leb_le in Hn.
        unfold bind, print, return_. cbn [emit opened verbose trace].
        do 2 eexists. split; [trace_eq|eapply res_error_no_size; eassumption].
      * apply Z.leb_gt in Hn.
        unfold bind, bytearray. cbn [emit opened verbose trace].
        rewrite setitem_fresh by assumption.
        do 2 eexists. split; [trace_eq|eapply res_error_fresh; eassumption].
    + unfold bind, print, return_. cbn [emit opened verbose trace].
      do 2 eexists. split; [trace_eq|eapply res_error_len_raises; eassumption].
Qed.

(** ** The outcomes of the bounds test and the three assignments *)

Lemma offsets_test (buffer : list byte) :
  (RED_BYTE_INDEX <? length buffer)%nat
  && (GREEN_BYTE_INDEX <? length buffer)%nat
  && (BLUE_BYTE_INDEX <? length buffer)%nat
  = (3 <? length buffer)%nat.
Proof.
  unfold RED_BYTE_INDEX, GREEN_BYTE_INDEX, BLUE_BYTE_INDEX.
  destruct (3 <? length buffer)%nat eqn:H3.
  - apply Nat.ltb_lt in H3.
    rewrite !(proj2 (Nat.ltb_lt _ _)) by lia. reflexivity.
  - apply andb_false_r.
Qed.

Lemma write_colors_written buffer r g b w :
  exists s t,
    write_colors buffer r g b w
    = (s, World (opened w) (verbose w) (trace w ++ t))
    /\ written buffer r g b s t.
Proof.
  destruct w as [o v t0]. unfold write_colors. rewrite offsets_test.
  destruct (3 <? length buffer)%nat eqn:H3.
  - apply Nat.ltb_lt in H3.
    unfold RED_BYTE_INDEX, GREEN_BYTE_INDEX, BLUE_BYTE_INDEX, bind.
    rewrite setitem_in_range by lia.
    destruct (byte_of_int r) as [xr|] eqn:Hr;
      [|exists (Raised ValueError), []; split;
        [now rewrite app_nil_r|apply wr_value_error; auto]].
    rewrite setitem_in_range by (rewrite length_insert; lia).
    destruct (byte_of_int g) as [xg|] eqn:Hg;
      [|exists (Raised ValueError), []; split;
        [now rewrite app_nil_r|apply wr_value_error; auto]].
    rewrite setitem_in_range by (rewrite !length_insert; lia).
    destruct (byte_of_int b) as [xb|] eqn:Hb;
      [|exists (Raised ValueError), []; split;
        [now rewrite app_nil_r|apply wr_value_error; auto]].
    exists (Normal (patch buffer xr xg xb)), []. split.
    + now rewrite app_nil_r.
    + now apply wr_patched.
  - apply Nat.ltb_ge in H3. unfold bind, print, return_.
    do 2 eexists. split; [trace_eq|now apply wr_out_of_range].
Qed.

(** ** The outcomes of the statements after the report was found *)

Lemma resolved_not_raised target e t : ~ resolved target (Raised e) t.
Proof. intros H. inversion H. Qed.

Lemma patch_and_send_patched target r g b w :
  exists s t,
    patch_and_send target r g b w
    = (s, World (opened w) (verbose w) (trace w ++ t))
    /\ patched target r g b (verbose w) s t.
Proof.
  unfold patch_and_send. unfold bind at 1.
  destruct (resolve_buffer_resolved target w) as (s1 & t1 & Hrun1 & Hres).
  rewrite Hrun1.
  destruct s1 as [buffer|success|e].
  2:{ exists (Returned success), t1. split; [reflexivity|].
      inversion Hres; subst; now apply pa_no_buffer. }
  2:{ now apply resolved_not_raised in Hres. }
  unfold bind at 1.
  destruct (write_colors_written buffer r g b
              (World (opened w) (verbose w) (trace w ++ t1)))
    as (s2 & t2 & Hrun2 & Hwr).
  rewrite Hrun2. cbn [opened verbose trace].
  inversion Hwr as [xr xg xb Hlen Hr Hg Hb| Hlen Hbad | Hlen]; subst s2 t2.
  - unfold dump_if_verbose, get_verbose, report_send, answer.
    destruct w as [o v t0]. cbn [opened verbose trace].
    destruct (send target (patch buffer xr xg xb)) as [[]|e] eqn:Hsend.
    + exists (Returned true). eexists. split; [|now eapply pa_sent; eauto].
      destruct v; unfold bind, print, ret, return_, dump; trace_eq.
    + exists (Raised e). eexists. split; [|now eapply pa_send_raises; eauto].
      destruct v; unfold bind, print, ret, return_, dump; trace_eq.
  - exists (Raised ValueError), t1. split; [now rewrite app_nil_r|].
    now apply pa_value_error with buffer.
  - exists (Returned false). eexists. split; [trace_eq|].
    now apply pa_out_of_range.
Qed.

(** ** The outcomes of [set_color] *)

Lemma set_color_except_run e o v t :
  set_color_except e (World o v t)
  = (Returned false, World o v (t ++ except_lines e)).
Proof.
  unfold set_color_except, except_lines, bind, print, ret, return_.
  destruct (exn_winerror e); unfold emit; cbn [opened verbose trace];
    now rewrite <- ?app_assoc.
Qed.

Lemma patched_not_normal target r g b v a t :
  ~ patched target r g b v (Normal a) t.
Proof. intros H. inversion H. Qed.

Lemma set_color_run R device r g b w :
  exists success t,
    set_color (R:=R) device r g b w
    = (Normal success, World false (verbose w) (trace w ++ t))
    /\ set_color_outcome device r g b (opened w) (verbose w) success t.
Proof.
  destruct w as [o v t0]. cbn [opened verbose trace].
  unfold set_color, def, try_finally, try_except, set_color_body.
  unfold bind at 1. unfold device_open.
  destruct (open device) as [[]|e] eqn:Hopen;
    unfold emit, set_opened; cbn [opened verbose trace].
  2:{ rewrite set_color_except_run, close_if_opened_run.
      do 2 eexists. split; [|eapply sc_open_raises; eassumption]. trace_eq. }
  unfold bind at 1. unfold device_find_feature_reports, answer.
  destruct (find_feature_reports device) as [reports|e] eqn:Hfind;
    unfold emit; cbn [opened verbose trace].
  2:{ rewrite set_color_except_run, close_if_opened_run.
      do 2 eexists. split; [|eapply sc_find_raises; eassumption]. trace_eq. }
  destruct (search_report reports None) as [target|] eqn:Hsearch.
  2:{ unfold report_not_found, bind, print, return_, emit.
      cbn [opened verbose trace]. rewrite close_if_opened_run.
      do 2 eexists. split; [|eapply sc_no_report; eassumption]. trace_eq. }
  destruct (report_truth target) eqn:Htruth; cbn [negb].
  2:{ unfold report_not_found, bind, print, return_, emit.
      cbn [opened verbose trace]. rewrite close_if_opened_run.
      do 2 eexists. split; [|eapply sc_false_report; eassumption]. trace_eq. }
  match goal with
  | |- context [patch_and_send target r g b ?w1] =>
      destruct (patch_and_send_patched target r g b w1)
        as (s & t & Hrun & Hpa)
  end.
  rewrite Hrun. cbn [opened verbose trace] in *.
  destruct s as [a|success|e].
  - now apply patched_not_normal in Hpa.
  - rewrite close_if_opened_run.
    do 2 eexists. split; [|eapply sc_returned; eassumption]. trace_eq.
  - rewrite set_color_except_run, close_if_opened_run.
    do 2 eexists. split; [|eapply sc_raised; eassumption]. trace_eq.
Qed.

Lemma resolved_fun target s t s' t' :
  resolved target s t -> resolved target s' t' -> s = s' /\ t = t'.
Proof.
  intros H1 H2. inversion H1; inversion H2; subst;
    try (split; congruence);
    exfalso;
    match goal with
    | Ha : report_len target = Ok ?n, Hb : report_len target = Ok ?m |- _ =>
        assert (n = m) by congruence; lia
    end.
Qed.

(** ** The search loop and the patched buffer *)

Lemma search_report_None reports :
  Forall (fun report => report_id report <> LIGHTING_REPORT_ID) reports ->
  search_report reports None = None.
Proof.
  induction 1 as [|report rest Hid _ IH]; cbn [search_report]; [reflexivity|].
  now apply Z.eqb_neq in Hid as ->.
Qed.

Lemma search_report_Some reports target :
  search_report reports None = Some target ->
  report_id target = LIGHTING_REPORT_ID /\ In target reports.
Proof.
  induction reports as [|report rest IH]; cbn [search_report]; [discriminate|].
  destruct (report_id report =? LIGHTING_REPORT_ID) eqn:Hid.
  - intros [= <-]. apply Z.eqb_eq in Hid. split; [assumption|now left].
  - intros [Ht Hin]%IH. split; [assumption|now right].
Qed.

Lemma length_patch buffer xr xg xb :
  length (patch buffer xr xg xb) = length buffer.
Proof. unfold patch. now rewrite !length_insert. Qed.

Lemma patch_red buffer xr xg xb :
  (3 < length buffer)%nat ->
  patch buffer xr xg xb !! RED_BYTE_INDEX = Some xr.
Proof.
  intros Hlen. unfold patch, RED_BYTE_INDEX, GREEN_BYTE_INDEX, BLUE_BYTE_INDEX.
  rewrite !list_lookup_insert_ne by lia.
  apply list_lookup_insert_eq. lia.
Qed.

Lemma patch_green buffer xr xg xb :
  (3 < length buffer)%nat ->
  patch buffer xr xg xb !! GREEN_BYTE_INDEX = Some xg.
Proof.
  intros Hlen. unfold patch, RED_BYTE_INDEX, GREEN_BYTE_INDEX, BLUE_BYTE_INDEX.
  rewrite list_lookup_insert_ne by lia.
  apply list_lookup_insert_eq. rewrite length_insert. lia.
Qed.

Lemma patch_blue buffer xr xg xb :
  (3 < length buffer)%nat ->
  patch buffer xr xg xb !! BLUE_BYTE_INDEX = Some xb.
Proof.
  intros Hlen. unfold patch, RED_BYTE_INDEX, GREEN_BYTE_INDEX, BLUE_BYTE_INDEX.
  apply list_lookup_insert_eq. rewrite !length_insert. lia.
Qed.

Lemma patch_other buffer xr xg xb (i : nat) :
  i <> RED_BYTE_INDEX -> i <> GREEN_BYTE_INDEX -> i <> BLUE_BYTE_INDEX ->
  patch buffer xr xg xb !! i = buffer !! i.
Proof.
  intros Hr Hg Hb. unfold patch.
  now rewrite !list_lookup_insert_ne by congruence.
Qed.

Lemma sends_dump v buffer r g b : sends (dump v buffer r g b) = [].
Proof. now destruct v. Qed.

Lemma allocations_dump v buffer r g b : allocations (dump v buffer r g b) = [].
Proof. now destruct v. Qed.

Lemma sends_except_lines e : sends (except_lines e) = [].
Proof. unfold except_lines. now destruct (exn_winerror e). Qed.

Lemma resolved_sends target s t : resolved target s t -> sends t = [].
Proof. now destruct 1. Qed.

(** What a successful resolution at the start of [patch_and_send] is. *)
Lemma resolve_buffer_Normal target w buffer w1 :
  resolve_buffer target w = (Normal buffer, w1) ->
  exists t,
    w1 = World (opened w) (verbose w) (trace w ++ t)
    /\ resolved target (Normal buffer) t.
Proof.
  intros Hrun.
  destruct (resolve_buffer_resolved target w) as (s & t & Hrun' & Hres).
  rewrite Hrun in Hrun'. injection Hrun' as <- ->. eauto.
Qed.

(** ** The entry point and the inspection loops *)

Lemma find_g19_loop_run all_devices w :
  find_g19_loop all_devices w
  = match List.find is_g19 all_devices with
    | Some device =>
        (Returned (Some device),
         emit (EvPrint (LnDeviceFound (product_name device)
                          (vendor_id device) (product_id device))) w)
    | None => (Normal tt, w)
    end.
Proof.
  induction all_devices as [|device rest IH];
    cbn [find_g19_loop List.find]; [reflexivity|].
  now destruct (is_g19 device).
Qed.

Lemma find_g19_run R all_devices w :
  find_g19 (R:=R) all_devices w
  = (Normal (List.find is_g19 all_devices),
     match List.find is_g19 all_devices with
     | Some device =>
         emit (EvPrint (LnDeviceFound (product_name device)
                          (vendor_id device) (product_id device))) w
     | None => w
     end).
Proof.
  unfold find_g19, def, bind. rewrite find_g19_loop_run.
  now destruct (List.find is_g19 all_devices).
Qed.

Lemma main_not_found all_devices args w :
  List.find is_g19 all_devices = None ->
  main all_devices args w
  = (Returned 1,
     World (opened w) (verbose w)
       (trace w ++ [EvPrint LnSearching; EvPrint LnNotFound;
                    EvPrint LnCheckConnection; EvPrint LnCheckIds])).
Proof.
  intros Hfind. unfold main. unfold bind at 1 2. unfold print at 1.
  rewrite find_g19_run, Hfind.
  unfold bind, print, sys_exit, return_. trace_eq.
Qed.

Lemma main_inspect all_devices args device w :
  List.find is_g19 all_devices = Some device ->
  arg_inspect args = true ->
  main all_devices args w
  = (Returned 0,
     snd (inspect_reports (R:=Z) device
            (World (opened w) (verbose w) (trace w ++ found_lines device)))).
Proof.
  intros Hfind Hinspect. unfold main. unfold bind at 1 2. unfold print at 1.
  rewrite find_g19_run, Hfind, Hinspect.
  unfold bind at 1 2 3. unfold print at 1.
  match goal with
  | |- context [inspect_reports device ?w0] =>
      replace w0
        with (World (opened w) (verbose w) (trace w ++ found_lines device))
        by (unfold found_lines; trace_eq)
  end.
  destruct (inspect_reports_shape Z device
              (World (opened w) (verbose w) (trace w ++ found_lines device)))
    as (t & -> & _).
  reflexivity.
Qed.

Lemma main_set_color all_devices args device w :
  List.find is_g19 all_devices = Some device ->
  arg_inspect args = false ->
  exists success w2,
    set_color (R:=Z) device (arg_r args) (arg_g args) (arg_b args)
      (at_set_color_call device args w)
    = (Normal success, w2)
    /\ main all_devices args w
       = (Returned (if success then 0 else 1),
          emit (EvPrint (if success then LnConfigured else LnFailed)) w2).
Proof.
  intros Hfind Hinspect. unfold main. unfold bind at 1 2. unfold print at 1.
  rewrite find_g19_run, Hfind, Hinspect.
  unfold bind at 1 2 3 4. unfold print at 1 2. unfold ret at 1.
  match goal with
  | |- context [set_color device _ _ _ (emit ?ev ?w0)] =>
      replace (emit ev w0) with (at_set_color_call device args w)
        by (unfold at_set_color_call, found_lines; trace_eq)
  end.
  destruct (set_color_run Z device (arg_r args) (arg_g args) (arg_b args)
              (at_set_color_call device args w))
    as (success & t & Hrun & _).
  rewrite Hrun. exists success. eexists. split; [reflexivity|].
  now destruct success.
Qed.

Lemma quiet_no_verbose_line t :
  forallb quiet_event t = true -> no_verbose_line t.
Proof.
  intros Ht l Hin. rewrite forallb_forall in Ht.
  specialize (Ht _ Hin). cbn in Ht. now destruct (is_verbose_line l).
Qed.

Lemma body_quiet t :
  forallb (body_event false) t = true -> forallb quiet_event t = true.
Proof.
  rewrite !forallb_forall. intros Ht ev Hin. specialize (Ht ev Hin).
  destruct ev; try reflexivity; try discriminate. exact Ht.
Qed.

(** [main] never writes the flag, and with the flag unset it prints no
    line of the verbose branch. *)
Lemma main_shape all_devices args w :
  exists s o t,
    main all_devices args w = (s, World o (verbose w) (trace w ++ t))
    /\ (verbose w = false -> forallb quiet_event t = true).
Proof.
  destruct (List.find is_g19 all_devices) as [device|] eqn:Hfind.
  2:{ rewrite (main_not_found _ _ _ Hfind). do 3 eexists.
      split; [reflexivity|]. reflexivity. }
  destruct (arg_inspect args) eqn:Hinspect.
  - rewrite (main_inspect _ _ _ _ Hfind Hinspect).
    destruct (inspect_reports_shape Z device
                (World (opened w) (verbose w) (trace w ++ found_lines device)))
      as (t & -> & Ht).
    cbn [snd opened verbose trace] in *. do 3 eexists.
    split; [rewrite <- app_assoc; reflexivity|].
    intros Hv. rewrite Hv in Ht. apply body_quiet in Ht.
    rewrite !forallb_app, Ht. now destruct (handle_open_at_exit _ _).
  - destruct (main_set_color _ _ _ w Hfind Hinspect)
      as (success & w2 & Hcall & ->).
    destruct (set_color_shape Z device (arg_r args) (arg_g args) (arg_b args)
                (at_set_color_call device args w))
      as (success' & t & Hrun & Ht).
    rewrite Hrun in Hcall. injection Hcall as -> <-.
    unfold at_set_color_call in *. cbn [snd opened verbose trace] in *.
    do 3 eexists. split; [trace_eq|].
    intros Hv. rewrite Hv in Ht. apply body_quiet in Ht.
    rewrite !forallb_app. cbn [forallb]. rewrite !forallb_app, Ht.
    destruct (handle_open_at_exit _ _), success; reflexivity.
Qed.

Lemma print_reports_readable R reports w :
  Forall readable reports ->
  print_reports (R:=R) reports w
  = (Normal tt, World (opened w) (verbose w) (trace w ++ listing reports)).
Proof.
  intros Hall. revert w.
  induction Hall as [|report rest [raw Hraw] _ IH]; intros w.
  - cbn. now rewrite app_nil_r, world_eta.
  - cbn [print_reports listing flat_map]. unfold bind at 1.
    unfold report_get_raw_data, answer. rewrite Hraw.
    unfold bind at 1. unfold print at 1. rewrite IH.
    unfold listing. trace_eq.
Qed.

(** * The claims *)

(** C1, counterexample. The live snapshot of the report starts with byte
    7; [set_color] reuses it, allocates nothing and returns [True], and
    the buffer it sends holds 7 at offset 0: offset 0 equals 7 although
    the buffer was not freshly allocated. *)
Lemma reused_snapshot_with_tag_7 :
  let call := set_color (R:=unit) (g19 [live_report]) 10 20 30 module_init in
  let buffer := patch snapshot32 x0a x14 x1e in
  fst call = Normal true
  /\ sends (trace (snd call)) = [(LIGHTING_REPORT_ID, buffer)]
  /\ allocations (trace (snd call)) = []
  /\ buffer !! 0%nat = Some x07
  /\ ~ (buffer !! 0%nat = Some x07 <-> allocations (trace (snd call)) <> []).
Proof.
  cbv zeta. repeat split; try reflexivity.
  intros [Hfresh _]. now apply Hfresh.
Qed.

(** C1, as amended. If [set_color] returns [True], exactly one buffer was
    sent, to the first feature report with identifier 7, and that buffer
    holds [r], [g], [b] at offsets 1, 2, 3.  When the raw snapshot of the
    report was non-empty the buffer was not allocated and keeps the
    snapshot's byte at offset 0 (whatever it is, 7 included); otherwise
    (empty snapshot, or [get_raw_data()] raised) the buffer was allocated
    with the declared length and holds 7 at offset 0. *)
Theorem sent_buffer_of_successful_call (R : Type) device r g b w w' :
  set_color (R:=R) device r g b w = (Normal true, w') ->
  exists reports target buffer t,
    find_feature_reports device = Ok reports
    /\ search_report reports None = Some target
    /\ trace w' = trace w ++ t
    /\ sends t = [(LIGHTING_REPORT_ID, buffer)]
    /\ int_of_byte <$> buffer !! RED_BYTE_INDEX = Some r
    /\ int_of_byte <$> buffer !! GREEN_BYTE_INDEX = Some g
    /\ int_of_byte <$> buffer !! BLUE_BYTE_INDEX = Some b
    /\ match get_raw_data target with
       | Ok (x :: raw) =>
           allocations t = [] /\ buffer !! 0%nat = Some x
           /\ length buffer = S (length raw)
       | _ =>
           exists report_size,
             report_len target = Ok report_size
             /\ allocations t = [report_size]
             /\ buffer !! 0%nat = Some x07
             /\ length buffer = Z.to_nat report_size
       end.
Proof.
  intros Hcall.
  destruct (set_color_run R device r g b w) as (success & t & Hrun & Hout).
  rewrite Hrun in Hcall. injection Hcall as -> <-.
  inversion Hout as [| | | |reports target success' t1 Hopen Hfind Hsearch
                             Htruth Hpa|]; subst.
  inversion Hpa as [| | | |buffer t2 xr xg xb Hres Hlen Hr Hg Hb Hsend];
    subst.
  destruct (search_report_Some _ _ Hsearch) as [Hid _].
  apply byte_of_int_Some in Hr as [Hr _], Hg as [Hg _], Hb as [Hb _].
  exists reports, target, (patch buffer xr xg xb). eexists.
  split; [assumption|]. split; [assumption|]. split; [reflexivity|].
  split.
  { rewrite !sends_app, (resolved_sends _ _ _ Hres), sends_dump, Hid.
    reflexivity. }
  rewrite patch_red, patch_green, patch_blue by assumption.
  cbn [fmap option_fmap option_map]. rewrite Hr, Hg, Hb.
  do 3 (split; [reflexivity|]).
  rewrite length_patch, patch_other by discriminate.
  rewrite !allocations_app, allocations_dump.
  inversion Hres as [x raw Hraw|n Hraw Hn Hpos| | |e n Hraw Hn Hpos| |];
    subst; rewrite Hraw.
  - auto.
  - exists n. rewrite fresh_buffer_tag, length_fresh_buffer by assumption.
    auto.
  - exists n. rewrite fresh_buffer_tag, length_fresh_buffer by assumption.
    auto.
Qed.

(** The theorem on a keyboard whose second feature report is the lighting
    report, with a live snapshot. *)
Lemma sent_buffer_of_successful_call_witness :
  exists reports target buffer t,
    find_feature_reports (g19 [other_report; live_report]) = Ok reports
    /\ search_report reports None = Some target
    /\ trace (snd (set_color (R:=unit) (g19 [other_report; live_report])
                     10 20 30 module_init))
       = trace module_init ++ t
    /\ sends t = [(LIGHTING_REPORT_ID, buffer)]
    /\ int_of_byte <$> buffer !! RED_BYTE_INDEX = Some 10
    /\ int_of_byte <$> buffer !! GREEN_BYTE_INDEX = Some 20
    /\ int_of_byte <$> buffer !! BLUE_BYTE_INDEX = Some 30
    /\ match get_raw_data target with
       | Ok (x :: raw) =>
           allocations t = [] /\ buffer !! 0%nat = Some x
           /\ length buffer = S (length raw)
       | _ =>
           exists report_size,
             report_len target = Ok report_size
             /\ allocations t = [report_size]
             /\ buffer !! 0%nat = Some x07
             /\ length buffer = Z.to_nat report_size
       end.
Proof.
  apply (sent_buffer_of_successful_call unit (g19 [other_report; live_report])
           10 20 30 module_init).
  reflexivity.
Defined.

(** C2. Every call of [inspect_reports] and of [set_color], whatever the
    device answers and whichever way the call ends, closes the device
    handle exactly once, as its last action, when the handle is open at
    that point (the [open()] went through, or it raised on a handle that
    was open before); when the handle is not open the close is skipped.
    Either way the handle is closed when the call returns. *)
Theorem device_closed_exactly_once (R : Type) device r g b w :
  closed_once_at_exit device w (snd (inspect_reports (R:=R) device w))
  /\ closed_once_at_exit device w (snd (set_color (R:=R) device r g b w)).
Proof.
  assert (Hshape : forall w' t,
             w' = World false (verbose w)
                    (trace w ++ [EvOpen] ++ t
                     ++ (if handle_open_at_exit device w
                         then [EvClose] else [])) ->
             forallb (body_event (verbose w)) t = true ->
             closed_once_at_exit device w w').
  { intros w' t -> Ht. apply body_closes in Ht.
    eexists. split; [reflexivity|]. split; [reflexivity|].
    destruct (handle_open_at_exit device w).
    - exists ([EvOpen] ++ t). split; [now rewrite <- app_assoc|].
      now rewrite closes_app, Ht.
    - now rewrite !closes_app, Ht. }
  split.
  - destruct (inspect_reports_shape R device w) as (t & Hrun & Ht).
    rewrite Hrun. now apply Hshape with t.
  - destruct (set_color_shape R device r g b w) as (s & t & Hrun & Ht).
    rewrite Hrun. now apply Hshape with t.
Qed.

(** C3, counterexample. The device has a feature report 7 with a live
    32-byte snapshot, but its send primitive raises: [set_color] hands it
    the patched buffer once and returns [False]. *)
Lemma refused_transfer_returns_false :
  let call := set_color (R:=unit) (g19 [refused_report]) 10 20 30 module_init in
  search_report [refused_report] None = Some refused_report
  /\ get_raw_data refused_report = Ok snapshot32
  /\ length snapshot32 = 32%nat
  /\ sends (trace (snd call))
     = [(LIGHTING_REPORT_ID, patch snapshot32 x0a x14 x1e)]
  /\ fst call = Normal false.
Proof. cbv zeta. repeat split; reflexivity. Qed.

(** C3, as amended. When [open()] and the enumeration go through, the
    first feature report with identifier 7 is a true object with a
    non-empty raw snapshot of length 32, and [r], [g], [b] are byte
    values, [set_color] calls the report's send primitive exactly once,
    with a 32-byte buffer that holds [r], [g], [b] at offsets 1, 2, 3 and
    the snapshot's bytes at the other 29 offsets; it returns [True] when
    that send returns and [False] when it raises. *)
Theorem live_snapshot_patched_and_sent (R : Type)
    device reports target snapshot r g b w :
  open device = Ok tt ->
  find_feature_reports device = Ok reports ->
  search_report reports None = Some target ->
  report_truth target = true ->
  get_raw_data target = Ok snapshot ->
  length snapshot = 32%nat ->
  0 <= r < 256 -> 0 <= g < 256 -> 0 <= b < 256 ->
  exists buffer t,
    set_color (R:=R) device r g b w
    = (Normal (match send target buffer with
               | Ok _ => true
               | Err _ => false
               end),
       World false (verbose w) (trace w ++ t))
    /\ sends t = [(LIGHTING_REPORT_ID, buffer)]
    /\ length buffer = 32%nat
    /\ int_of_byte <$> buffer !! RED_BYTE_INDEX = Some r
    /\ int_of_byte <$> buffer !! GREEN_BYTE_INDEX = Some g
    /\ int_of_byte <$> buffer !! BLUE_BYTE_INDEX = Some b
    /\ forall i : nat,
         i <> RED_BYTE_INDEX -> i <> GREEN_BYTE_INDEX ->
         i <> BLUE_BYTE_INDEX ->
         buffer !! i = snapshot !! i.
Proof.
  intros Hopen Hfind Hsearch Htruth Hraw Hlen Hr Hg Hb.
  destruct (byte_of_int_in_range r Hr) as (xr & Hxr & Hir).
  destruct (byte_of_int_in_range g Hg) as (xg & Hxg & Hig).
  destruct (byte_of_int_in_range b Hb) as (xb & Hxb & Hib).
  destruct (search_report_Some _ _ Hsearch) as [Hid _].
  assert (Hlive : resolved target (Normal snapshot)
                    [EvGetRawData (report_id target)]).
  { destruct snapshot as [|x raw]; [discriminate|]. now apply res_live. }
  exists (patch snapshot xr xg xb).
  destruct (set_color_run R device r g b w) as (success & t & Hrun & Hout).
  exists t. rewrite Hrun.
  assert (Hbuffer :
            length (patch snapshot xr xg xb) = 32%nat
            /\ int_of_byte <$> patch snapshot xr xg xb !! RED_BYTE_INDEX
               = Some r
            /\ int_of_byte <$> patch snapshot xr xg xb !! GREEN_BYTE_INDEX
               = Some g
            /\ int_of_byte <$> patch snapshot xr xg xb !! BLUE_BYTE_INDEX
               = Some b
            /\ forall i : nat,
                 i <> RED_BYTE_INDEX -> i <> GREEN_BYTE_INDEX ->
                 i <> BLUE_BYTE_INDEX ->
                 patch snapshot xr xg xb !! i = snapshot !! i).
  { rewrite length_patch, patch_red, patch_green, patch_blue by lia.
    cbn [fmap option_fmap option_map]. rewrite Hir, Hig, Hib.
    repeat split; try assumption. intros i. apply patch_other. }
  inversion Hout as [| | | |reports' target' success' t1 _ Hfind' Hsearch' _ Hpa
                    |reports' target' e t1 _ Hfind' Hsearch' _ Hpa];
    subst; try congruence;
    assert (target' = target) by congruence; subst target';
    inversion Hpa as [t2 Hres|buffer t2 Hres Hshort|buffer t2 Hres Hlong Hbad
                     |buffer t2 xr' xg' xb' e' Hres Hlong Hr' Hg' Hb' Hsend
                     |buffer t2 xr' xg' xb' Hres Hlong Hr' Hg' Hb' Hsend];
    subst;
    destruct (resolved_fun _ _ _ _ _ Hres Hlive) as [Hs ->];
    try discriminate Hs; injection Hs as ->.
  - lia.
  - assert (xr' = xr /\ xg' = xg /\ xb' = xb) as (-> & -> & ->)
        by (repeat split; congruence).
    rewrite Hsend. split; [reflexivity|]. split; [|exact Hbuffer].
    rewrite !sends_app, sends_dump, Hid. reflexivity.
  - destruct Hbad as [Hbad|[Hbad|Hbad]]; congruence.
  - assert (xr' = xr /\ xg' = xg /\ xb' = xb) as (-> & -> & ->)
        by (repeat split; congruence).
    rewrite Hsend. split; [reflexivity|]. split; [|exact Hbuffer].
    rewrite !sends_app, sends_dump, sends_except_lines, Hid. reflexivity.
Qed.

(** The theorem on the same keyboard: the 32-byte snapshot is patched and
    sent. *)
Lemma live_snapshot_patched_and_sent_witness :
  exists buffer t,
    set_color (R:=unit) (g19 [other_report; live_report]) 10 20 30 module_init
    = (Normal (match send live_report buffer with
               | Ok _ => true
               | Err _ => false
               end),
       World false (verbose module_init) (trace module_init ++ t))
    /\ sends t = [(LIGHTING_REPORT_ID, buffer)]
    /\ length buffer = 32%nat
    /\ int_of_byte <$> buffer !! RED_BYTE_INDEX = Some 10
    /\ int_of_byte <$> buffer !! GREEN_BYTE_INDEX = Some 20
    /\ int_of_byte <$> buffer !! BLUE_BYTE_INDEX = Some 30
    /\ forall i : nat,
         i <> RED_BYTE_INDEX -> i <> GREEN_BYTE_INDEX ->
         i <> BLUE_BYTE_INDEX ->
         buffer !! i = snapshot32 !! i.
Proof.
  apply (live_snapshot_patched_and_sent unit (g19 [other_report; live_report])
           [other_report; live_report] live_report snapshot32 10 20 30
           module_init);
    first [reflexivity | lia].
Defined.

(** C4. The exit status of a run is 0 exactly when a device with the
    G19's identifiers was found and either inspection was requested or the
    call of [set_color] returned [True]; it is 1 when no device has the
    identifiers, in which case no [open()] call is ever made, and when the
    call of [set_color] returned [False]; there is no other status. *)
Theorem exit_status_of_run all_devices args :
  let found := List.find is_g19 all_devices in
  let status := fst (run all_devices args) in
  let set_color_returned (success : bool) :=
    exists device,
      found = Some device /\ arg_inspect args = false
      /\ fst (set_color (R:=Z) device (arg_r args) (arg_g args) (arg_b args)
                (at_set_color_call device args module_init))
         = Normal success in
  (status = 0 <->
   (exists device, found = Some device)
   /\ (arg_inspect args = true \/ set_color_returned true))
  /\ (found = None ->
      status = 1 /\ opens (trace (snd (run all_devices args))) = 0%nat)
  /\ (set_color_returned false -> status = 1)
  /\ (status = 0 \/ status = 1).
Proof.
  cbv zeta. unfold run.
  destruct (List.find is_g19 all_devices) as [device|] eqn:Hfind.
  2:{ rewrite (main_not_found _ _ _ Hfind). cbn [fst snd exit_status trace].
      split; [split; [discriminate|intros [[d Hd] _]; discriminate Hd]|].
      split; [intros _; split; reflexivity|].
      split; [intros (d & Hd & _); discriminate Hd|right; reflexivity]. }
  destruct (arg_inspect args) eqn:Hinspect.
  - rewrite (main_inspect _ _ _ _ Hfind Hinspect). cbn [fst exit_status].
    split.
    { split; [intros _|reflexivity].
      split; [eexists; reflexivity|left; reflexivity]. }
    split; [discriminate|].
    split; [intros (d & _ & Hi & _); discriminate Hi|left; reflexivity].
  - destruct (main_set_color _ _ _ module_init Hfind Hinspect)
      as (success & w2 & Hcall & ->).
    cbn [fst exit_status].
    split.
    { split.
      - intros Hs. split; [eexists; reflexivity|].
        right. exists device. rewrite Hcall.
        destruct success; [auto|discriminate Hs].
      - intros [_ [Hi|(d & Hd & _ & Ht)]]; [discriminate Hi|].
        injection Hd as <-. rewrite Hcall in Ht.
        now injection Ht as ->. }
    split; [discriminate|].
    split.
    { intros (d & Hd & _ & Hf). injection Hd as <-. rewrite Hcall in Hf.
      now injection Hf as ->. }
    destruct success; auto.
Qed.

(** C5. When [open()] and the enumeration of the feature reports go
    through and no feature report has identifier 7, [set_color] prints the
    error that names identifier 7 and the hint, returns [False] (it does
    not raise) and closes the handle; these are its only actions, so
    nothing is sent and the output and input reports are never asked
    for. *)
Theorem missing_report_returns_false (R : Type) device reports r g b w :
  open device = Ok tt ->
  find_feature_reports device = Ok reports ->
  Forall (fun report => report_id report <> LIGHTING_REPORT_ID) reports ->
  set_color (R:=R) device r g b w
  = (Normal false,
     World false (verbose w)
       (trace w ++ [EvOpen; EvFindFeatureReports; EvPrint LnReportNotFound;
                    EvPrint LnTryInspect; EvClose]))
  /\ render LnReportNotFound
     = "Error: No se encontró el informe HID con ID 7 para controlar la iluminación."%string.
Proof.
  intros Hopen Hfind Hnone%search_report_None. split; [|reflexivity].
  destruct (set_color_run R device r g b w) as (success & t & Hrun & Hout).
  rewrite Hrun. inversion Hout; subst; try congruence.
Qed.

(** The theorem on a keyboard whose only feature report has identifier
    3. *)
Lemma missing_report_returns_false_witness :
  set_color (R:=unit) (g19 [other_report]) 10 20 30 module_init
  = (Normal false,
     World false false
       [EvOpen; EvFindFeatureReports; EvPrint LnReportNotFound;
        EvPrint LnTryInspect; EvClose])
  /\ render LnReportNotFound
     = "Error: No se encontró el informe HID con ID 7 para controlar la iluminación."%string.
Proof.
  apply (missing_report_returns_false unit (g19 [other_report])
           [other_report] 10 20 30 module_init).
  - reflexivity.
  - reflexivity.
  - repeat constructor; discriminate.
Defined.

(** C6. When the buffer resolved for the lighting report is too short for
    one of the offsets 1, 2, 3, [set_color] prints the error that names
    the three offsets and the length of the buffer, closes the handle and
    returns [False]; it does that right after the resolution, and no
    buffer was sent by then, so the send primitive is never called. *)
Theorem offsets_outside_buffer (R : Type)
    device reports target buffer r g b w w1 :
  open device = Ok tt ->
  find_feature_reports device = Ok reports ->
  search_report reports None = Some target ->
  report_truth target = true ->
  resolve_buffer target
    (World true (verbose w) (trace w ++ [EvOpen; EvFindFeatureReports]))
  = (Normal buffer, w1) ->
  ~ ((RED_BYTE_INDEX < length buffer)%nat
     /\ (GREEN_BYTE_INDEX < length buffer)%nat
     /\ (BLUE_BYTE_INDEX < length buffer)%nat) ->
  set_color (R:=R) device r g b w
  = (Normal false,
     World false (verbose w)
       (trace w1
        ++ [EvPrint (LnOffsetsOutOfRange (length buffer)); EvClose]))
  /\ sends (trace w1) = sends (trace w)
  /\ render (LnOffsetsOutOfRange (length buffer))
     = ("Error: Índices de color (1, 2, 3) fuera de los límites del buffer (tamaño "
        ++ str_nat (length buffer) ++ ").")%string.
Proof.
  intros Hopen Hfind Hsearch Htruth Hresolve Hshort.
  apply resolve_buffer_Normal in Hresolve as (t & -> & Hres).
  cbn [opened verbose trace].
  assert (Hlen : (length buffer <= 3)%nat)
    by (unfold RED_BYTE_INDEX, GREEN_BYTE_INDEX, BLUE_BYTE_INDEX in Hshort;
        lia).
  split; [|split; [|reflexivity]].
  2:{ rewrite !sends_app, (resolved_sends _ _ _ Hres).
      change (sends [EvOpen; EvFindFeatureReports]) with (@nil (Z * list byte)).
      now rewrite !app_nil_r. }
  destruct (set_color_run R device r g b w) as (success & t' & Hrun & Hout).
  rewrite Hrun.
  inversion Hout as [| | | |reports' target' success' t1 _ Hfind' Hsearch' _ Hpa
                    |reports' target' e t1 _ Hfind' Hsearch' _ Hpa];
    subst; try congruence;
    assert (target' = target) by congruence; subst target';
    inversion Hpa as [t2 Hres'|buffer' t2 Hres' Hshort'
                     |buffer' t2 Hres' Hlong Hbad
                     |buffer' t2 xr xg xb e' Hres' Hlong Hr Hg Hb Hsend
                     |buffer' t2 xr xg xb Hres' Hlong Hr Hg Hb Hsend];
    subst;
    destruct (resolved_fun _ _ _ _ _ Hres' Hres) as [Hs ->];
    try discriminate Hs; injection Hs as ->; try lia.
  do 2 f_equal. rewrite <- !app_assoc. reflexivity.
Qed.

(** The theorem on a lighting report with a snapshot of three bytes. *)
Lemma offsets_outside_buffer_witness :
  set_color (R:=unit) (g19 [short_report]) 10 20 30 module_init
  = (Normal false,
     World false false
       ([EvOpen; EvFindFeatureReports; EvGetRawData 7]
        ++ [EvPrint (LnOffsetsOutOfRange 3); EvClose]))
  /\ sends [EvOpen; EvFindFeatureReports; EvGetRawData 7] = sends []
  /\ render (LnOffsetsOutOfRange 3)
     = ("Error: Índices de color (1, 2, 3) fuera de los límites del buffer (tamaño "
        ++ str_nat 3 ++ ").")%string.
Proof.
  apply (offsets_outside_buffer unit (g19 [short_report]) [short_report]
           short_report [x07; x00; x00] 10 20 30 module_init
           (World true false [EvOpen; EvFindFeatureReports; EvGetRawData 7]));
    try reflexivity.
  unfold BLUE_BYTE_INDEX. cbn [length]. lia.
Defined.

(** C7. For a lighting report with declared length [report_size]:
    - an empty snapshot with [report_size <= 0] makes [set_color] print
      its error and return [False]; no buffer is allocated on the way;
    - when [get_raw_data()] raises, the error is caught and printed, and a
      [report_size <= 0] makes [set_color] print a different error and
      return [False], again without an allocation;
    - with [0 < report_size] the empty snapshot and the raised error
      resolve to the same buffer: [report_size] zero bytes with 7 written
      at offset 0. *)
Theorem buffer_fallbacks (R : Type) device reports target report_size r g b w :
  open device = Ok tt ->
  find_feature_reports device = Ok reports ->
  search_report reports None = Some target ->
  report_truth target = true ->
  report_len target = Ok report_size ->
  (get_raw_data target = Ok [] -> report_size <= 0 ->
   set_color (R:=R) device r g b w
   = (Normal false,
      World false (verbose w)
        (trace w ++ [EvOpen; EvFindFeatureReports;
                     EvGetRawData LIGHTING_REPORT_ID;
                     EvLen LIGHTING_REPORT_ID;
                     EvPrint LnNoRawNoSize; EvClose])))
  /\ (forall e_get,
        get_raw_data target = Err e_get -> report_size <= 0 ->
        set_color (R:=R) device r g b w
        = (Normal false,
           World false (verbose w)
             (trace w ++ [EvOpen; EvFindFeatureReports;
                          EvGetRawData LIGHTING_REPORT_ID;
                          EvPrint (LnRawError e_get);
                          EvLen LIGHTING_REPORT_ID;
                          EvPrint LnNoSize; EvClose])))
  /\ (forall w1,
        get_raw_data target = Ok [] -> 0 < report_size ->
        resolve_buffer target w1
        = (Normal (<[0%nat:=x07]> (replicate (Z.to_nat report_size) x00)),
           World (opened w1) (verbose w1)
             (trace w1 ++ [EvGetRawData LIGHTING_REPORT_ID;
                           EvLen LIGHTING_REPORT_ID;
                           EvPrint (LnRawEmpty report_size);
                           EvBytearray report_size])))
  /\ (forall w1 e_get,
        get_raw_data target = Err e_get -> 0 < report_size ->
        resolve_buffer target w1
        = (Normal (<[0%nat:=x07]> (replicate (Z.to_nat report_size) x00)),
           World (opened w1) (verbose w1)
             (trace w1 ++ [EvGetRawData LIGHTING_REPORT_ID;
                           EvPrint (LnRawError e_get);
                           EvLen LIGHTING_REPORT_ID;
                           EvBytearray report_size])))
  /\ (0 < report_size ->
      <[0%nat:=x07]> (replicate (Z.to_nat report_size) x00) !! 0%nat
      = Some x07)
  /\ render LnNoSize <> render LnNoRawNoSize.
Proof.
  intros Hopen Hfind Hsearch Htruth Hlen.
  destruct (search_report_Some _ _ Hsearch) as [Hid _].
  assert (Hset : forall t,
             resolved target (Returned false) t ->
             set_color (R:=R) device r g b w
             = (Normal false,
                World false (verbose w)
                  (trace w ++ [EvOpen; EvFindFeatureReports] ++ t
                   ++ [EvClose]))).
  { intros t Hres.
    destruct (set_color_run R device r g b w) as (success & t' & Hrun & Hout).
    rewrite Hrun.
    inversion Hout as [| | |
                       |reports' target' success' t1 _ Hfind' Hsearch' _ Hpa
                       |reports' target' e t1 _ Hfind' Hsearch' _ Hpa];
      subst; try congruence;
      assert (target' = target) by congruence; subst target';
      inversion Hpa as [t2 Hres'|buffer' t2 Hres' Hshort'
                       |buffer' t2 Hres' Hlong Hbad
                       |buffer' t2 xr xg xb e' Hres' Hlong Hr Hg Hb Hsend
                       |buffer' t2 xr xg xb Hres' Hlong Hr Hg Hb Hsend];
      subst;
      destruct (resolved_fun _ _ _ _ _ Hres' Hres) as [Hs ->];
      try discriminate Hs.
    reflexivity. }
  assert (Hresolve : forall w1 t,
             resolved target (Normal (fresh_buffer report_size)) t ->
             resolve_buffer target w1
             = (Normal (fresh_buffer report_size),
                World (opened w1) (verbose w1) (trace w1 ++ t))).
  { intros w1 t Hres.
    destruct (resolve_buffer_resolved target w1) as (s & t' & Hrun & Hres').
    rewrite Hrun.
    now destruct (resolved_fun _ _ _ _ _ Hres' Hres) as [-> ->]. }
  rewrite <- Hid. repeat split.
  - intros Hraw Hn. rewrite (Hset _ (res_empty_no_size _ _ Hraw Hlen Hn)).
    reflexivity.
  - intros e_get Hraw Hn.
    rewrite (Hset _ (res_error_no_size _ _ _ Hraw Hlen Hn)). reflexivity.
  - intros w1 Hraw Hn.
    exact (Hresolve w1 _ (res_empty_fresh _ _ Hraw Hlen Hn)).
  - intros w1 e_get Hraw Hn.
    exact (Hresolve w1 _ (res_error_fresh _ _ _ Hraw Hlen Hn)).
  - apply fresh_buffer_tag.
  - discriminate.
Qed.

(** The theorem on a lighting report that cannot be read and declares
    length 0: the second part applies. *)
Lemma buffer_fallbacks_witness :
  set_color (R:=unit) (g19 [blind_report]) 10 20 30 module_init
  = (Normal false,
     World false false
       [EvOpen; EvFindFeatureReports; EvGetRawData 7;
        EvPrint (LnRawError io_error); EvLen 7; EvPrint LnNoSize; EvClose]).
Proof.
  destruct (buffer_fallbacks unit (g19 [blind_report]) [blind_report]
              blind_report 0 10 20 30 module_init
              eq_refl eq_refl eq_refl eq_refl eq_refl)
    as (_ & Hraised & _).
  apply (Hraised io_error); [reflexivity|lia].
Defined.

(** C8. When inspection is requested and a device with the G19's
    identifiers is found, the run exits with status 0 whatever the device
    answers; [inspect_reports] has closed the handle as its last action
    if [open()] went through.  In particular, when every enumeration of
    reports raises, the first error is printed as a diagnostic, the
    handle is closed and the status is still 0. *)
Theorem inspect_mode_exits_with_0 all_devices args device :
  arg_inspect args = true ->
  List.find is_g19 all_devices = Some device ->
  fst (run all_devices args) = 0
  /\ opened (snd (run all_devices args)) = false
  /\ (exists t,
        trace (snd (run all_devices args))
        = found_lines device ++ [EvOpen] ++ t
          ++ match open device with
             | Ok _ => [EvClose]
             | Err _ => []
             end
        /\ closes t = 0%nat)
  /\ (forall e1 e2 e3,
        open device = Ok tt ->
        find_feature_reports device = Err e1 ->
        find_output_reports device = Err e2 ->
        find_input_reports device = Err e3 ->
        run all_devices args
        = (0,
           World false false
             (found_lines device
              ++ [EvOpen; EvPrint LnInspectBegin; EvPrint LnFeatureHeader;
                  EvFindFeatureReports; EvPrint (LnInspectError e1);
                  EvClose]))).
Proof.
  intros Hinspect Hfind. unfold run.
  rewrite (main_inspect _ _ _ _ Hfind Hinspect).
  cbn [fst snd exit_status opened verbose trace module_init app].
  split; [reflexivity|].
  pose proof (inspect_reports_shape Z device
                (World false false (found_lines device)))
    as (t & Hrun & Ht).
  split; [|split].
  - now rewrite Hrun.
  - exists t. rewrite Hrun. cbn [snd opened verbose trace].
    split; [|now apply body_closes in Ht].
    unfold handle_open_at_exit. cbn [opened]. now destruct (open device).
  - intros e1 e2 e3 Hopen Hfeature _ _. f_equal.
    unfold inspect_reports, def_none, def, try_finally, try_except.
    unfold bind at 1. unfold device_open. rewrite Hopen.
    unfold bind at 1 2 3. unfold print at 1 2.
    unfold device_find_feature_reports, answer. rewrite Hfeature.
    unfold print, emit, set_opened. cbn [opened verbose trace].
    rewrite close_if_opened_run. cbn [snd].
    rewrite <- !app_assoc. reflexivity.
Qed.

(** The theorem on a host with a mouse and a keyboard that fails every
    enumeration. *)
Lemma inspect_mode_exits_with_0_witness :
  fst (run [mouse; g19_mute] (Build_Namespace 10 20 30 true)) = 0
  /\ opened (snd (run [mouse; g19_mute] (Build_Namespace 10 20 30 true)))
     = false
  /\ (exists t,
        trace (snd (run [mouse; g19_mute] (Build_Namespace 10 20 30 true)))
        = found_lines g19_mute ++ [EvOpen] ++ t
          ++ match open g19_mute with
             | Ok _ => [EvClose]
             | Err _ => []
             end
        /\ closes t = 0%nat)
  /\ (forall e1 e2 e3,
        open g19_mute = Ok tt ->
        find_feature_reports g19_mute = Err e1 ->
        find_output_reports g19_mute = Err e2 ->
        find_input_reports g19_mute = Err e3 ->
        run [mouse; g19_mute] (Build_Namespace 10 20 30 true)
        = (0,
           World false false
             (found_lines g19_mute
              ++ [EvOpen; EvPrint LnInspectBegin; EvPrint LnFeatureHeader;
                  EvFindFeatureReports; EvPrint (LnInspectError e1);
                  EvClose]))).
Proof.
  apply (inspect_mode_exits_with_0 [mouse; g19_mute]
           (Build_Namespace 10 20 30 true) g19_mute);
    reflexivity.
Defined.

(** C9. The module body leaves [verbose] unset; [main] never changes the
    flag, whatever the devices and the arguments are; and a run of the
    script prints neither the "sending" line nor the hexadecimal dump of
    the verbose branch of [set_color]. *)
Theorem verbose_branch_never_runs all_devices args :
  verbose module_init = false
  /\ (forall w, verbose (snd (main all_devices args w)) = verbose w)
  /\ no_verbose_line (trace (snd (run all_devices args))).
Proof.
  split; [reflexivity|]. split.
  - intros w. destruct (main_shape all_devices args w) as (s & o & t & -> & _).
    reflexivity.
  - unfold run.
    destruct (main_shape all_devices args module_init)
      as (s & o & t & -> & Ht).
    cbn [snd trace module_init app]. apply quiet_no_verbose_line.
    now apply Ht.
Qed.

(** C10. When [set_color] is called with a component that is not a byte
    value and a buffer was resolved for the lighting report, the call
    returns [False] (it does not raise), sends nothing and closes the
    handle as its last action.  With a buffer that has the offsets 1, 2, 3
    the failing assignment raises [ValueError], which the outer handler
    prints; with a shorter buffer the bounds test fails before any
    assignment. *)
Theorem component_out_of_range_caught (R : Type)
    device reports target buffer r g b w w1 :
  open device = Ok tt ->
  find_feature_reports device = Ok reports ->
  search_report reports None = Some target ->
  report_truth target = true ->
  resolve_buffer target
    (World true (verbose w) (trace w ++ [EvOpen; EvFindFeatureReports]))
  = (Normal buffer, w1) ->
  ~ (0 <= r < 256 /\ 0 <= g < 256 /\ 0 <= b < 256) ->
  set_color (R:=R) device r g b w
  = (Normal false,
     World false (verbose w)
       (trace w1
        ++ [EvPrint (if (BLUE_BYTE_INDEX <? length buffer)%nat
                     then LnSetColorError ValueError
                     else LnOffsetsOutOfRange (length buffer));
            EvClose]))
  /\ sends (trace w1) = sends (trace w).
Proof.
  intros Hopen Hfind Hsearch Htruth Hresolve Hbytes.
  apply resolve_buffer_Normal in Hresolve as (t & -> & Hres).
  cbn [opened verbose trace]. unfold BLUE_BYTE_INDEX.
  split.
  2:{ rewrite !sends_app, (resolved_sends _ _ _ Hres).
      change (sends [EvOpen; EvFindFeatureReports]) with (@nil (Z * list byte)).
      now rewrite !app_nil_r. }
  destruct (set_color_run R device r g b w) as (success & t' & Hrun & Hout).
  rewrite Hrun.
  inversion Hout as [| | | |reports' target' success' t1 _ Hfind' Hsearch' _ Hpa
                    |reports' target' e t1 _ Hfind' Hsearch' _ Hpa];
    subst; try congruence;
    assert (target' = target) by congruence; subst target';
    inversion Hpa as [t2 Hres'|buffer' t2 Hres' Hshort'
                     |buffer' t2 Hres' Hlong Hbad
                     |buffer' t2 xr xg xb e' Hres' Hlong Hr Hg Hb Hsend
                     |buffer' t2 xr xg xb Hres' Hlong Hr Hg Hb Hsend];
    subst;
    destruct (resolved_fun _ _ _ _ _ Hres' Hres) as [Hs ->];
    try discriminate Hs; injection Hs as ->.
  - apply Nat.ltb_ge in Hshort' as ->.
    do 2 f_equal. rewrite <- !app_assoc. reflexivity.
  - exfalso. apply Hbytes.
    apply byte_of_int_Some in Hr, Hg, Hb. tauto.
  - apply Nat.ltb_lt in Hlong as ->.
    do 2 f_equal. rewrite <- !app_assoc. reflexivity.
  - exfalso. apply Hbytes.
    apply byte_of_int_Some in Hr, Hg, Hb. tauto.
Qed.

(** The theorem on a call with green = 300. *)
Lemma component_out_of_range_caught_witness :
  set_color (R:=unit) (g19 [live_report]) 10 300 30 module_init
  = (Normal false,
     World false false
       ([EvOpen; EvFindFeatureReports; EvGetRawData 7]
        ++ [EvPrint (if (BLUE_BYTE_INDEX <? length snapshot32)%nat
                     then LnSetColorError ValueError
                     else LnOffsetsOutOfRange (length snapshot32));
            EvClose]))
  /\ sends [EvOpen; EvFindFeatureReports; EvGetRawData 7] = sends [].
Proof.
  apply (component_out_of_range_caught unit (g19 [live_report]) [live_report]
           live_report snapshot32 10 300 30 module_init
           (World true false [EvOpen; EvFindFeatureReports; EvGetRawData 7]));
    try reflexivity.
  lia.
Defined.

(** * Further properties *)

(** [set_color] never raises and never leaves its caller another way:
    every call returns [True] or [False]. *)
Theorem set_color_returns_a_boolean (R : Type) device r g b w :
  exists success w',
    set_color (R:=R) device r g b w = (Normal success, w').
Proof.
  destruct (set_color_run R device r g b w) as (success & t & Hrun & _).
  eauto.
Qed.

(** [find_g19] returns the first device of the enumeration that has the
    G19's identifiers and prints one line for it, or returns [None] and
    prints nothing when no device has them; it makes no call on any
    device. *)
Theorem find_g19_first_match (R : Type) all_devices w :
  match find_g19 (R:=R) all_devices w with
  | (Normal (Some device), w') =>
      (exists before after,
         all_devices = before ++ device :: after
         /\ forallb (fun d => negb (is_g19 d)) before = true)
      /\ vendor_id device = LOGITECH_VENDOR_ID
      /\ product_id device = G19_PRODUCT_ID
      /\ w' = emit (EvPrint (LnDeviceFound (product_name device)
                               (vendor_id device) (product_id device))) w
  | (Normal None, w') =>
      forallb (fun d => negb (is_g19 d)) all_devices = true /\ w' = w
  | _ => False
  end.
Proof.
  rewrite find_g19_run.
  induction all_devices as [|d rest IH]; cbn [List.find forallb].
  - auto.
  - destruct (is_g19 d) eqn:Hd; cbn [negb andb].
    + split; [exists [], rest; auto|].
      unfold is_g19 in Hd. apply andb_prop in Hd as [Hv Hp].
      apply Z.eqb_eq in Hv, Hp. auto.
    + destruct (List.find is_g19 rest) as [device|].
      * destruct IH as ((before & after & -> & Hbefore) & Hids).
        split; [|exact Hids].
        exists (d :: before), after. cbn [forallb app]. rewrite Hd, Hbefore.
        auto.
      * exact IH.
Qed.

(** When the device opens and every report can be enumerated and read,
    [inspect_reports] prints, between its two banner lines, the
    identifier and the size of every feature report, then of every output
    report, then of every input report, each kind under its header, in
    the order of the enumerations, and closes the handle. *)
Theorem inspection_lists_every_report (R : Type)
    device features outputs inputs w :
  open device = Ok tt ->
  find_feature_reports device = Ok features ->
  find_output_reports device = Ok outputs ->
  find_input_reports device = Ok inputs ->
  Forall readable (features ++ outputs ++ inputs) ->
  inspect_reports (R:=R) device w
  = (Normal tt,
     World false (verbose w)
       (trace w
        ++ [EvOpen; EvPrint LnInspectBegin; EvPrint LnFeatureHeader;
            EvFindFeatureReports]
        ++ listing features
        ++ [EvPrint LnOutputHeader; EvFindOutputReports]
        ++ listing outputs
        ++ [EvPrint LnInputHeader; EvFindInputReports]
        ++ listing inputs
        ++ [EvPrint LnInspectEnd; EvClose])).
Proof.
  intros Hopen Hfeatures Houtputs Hinputs Hall.
  apply Forall_app in Hall as [Hf Hall].
  apply Forall_app in Hall as [Ho Hi].
  destruct w as [o v t0].
  unfold inspect_reports, def_none, def, try_finally, try_except.
  unfold bind at 1. unfold device_open. rewrite Hopen.
  unfold bind at 1 2 3. unfold print at 1 2.
  unfold device_find_feature_reports, answer at 1. rewrite Hfeatures.
  unfold bind at 1. rewrite (print_reports_readable _ _ _ Hf).
  unfold bind at 1 2. unfold print at 1.
  unfold device_find_output_reports, answer at 1. rewrite Houtputs.
  unfold bind at 1. rewrite (print_reports_readable _ _ _ Ho).
  unfold bind at 1 2. unfold print at 1.
  unfold device_find_input_reports, answer at 1. rewrite Hinputs.
  unfold bind at 1. rewrite (print_reports_readable _ _ _ Hi).
  unfold print, emit, set_opened. cbn [opened verbose trace].
  rewrite close_if_opened_run.
  rewrite <- !app_assoc. reflexivity.
Qed.

(** The theorem on a keyboard with two readable feature reports. *)
Lemma inspection_lists_every_report_witness :
  inspect_reports (R:=unit) (g19 [other_report; short_report]) module_init
  = (Normal tt,
     World false (verbose module_init)
       (trace module_init
        ++ [EvOpen; EvPrint LnInspectBegin; EvPrint LnFeatureHeader;
            EvFindFeatureReports]
        ++ listing [other_report; short_report]
        ++ [EvPrint LnOutputHeader; EvFindOutputReports]
        ++ listing []
        ++ [EvPrint LnInputHeader; EvFindInputReports]
        ++ listing []
        ++ [EvPrint LnInspectEnd; EvClose])).
Proof.
  apply (inspection_lists_every_report unit (g19 [other_report; short_report])
           [other_report; short_report] [] [] module_init);
    try reflexivity.
  repeat constructor; eexists; reflexivity.
Defined.


(** * More of [set_color]: one call, path by path *)

Lemma patched_fun target r g b v s t s' t' :
  patched target r g b v s t -> patched target r g b v s' t' ->
  s = s' /\ t = t'.
Proof.
  intros H1 H2.
  inversion H1 as [t1 Hres1|b1 t1 Hres1 Hlen1|b1 t1 Hres1 Hlen1 Hbad1
                  |b1 t1 xr1 xg1 xb1 e1 Hres1 Hlen1 Hr1 Hg1 Hb1 Hsend1
                  |b1 t1 xr1 xg1 xb1 Hres1 Hlen1 Hr1 Hg1 Hb1 Hsend1];
    inversion H2 as [t2 Hres2|b2 t2 Hres2 Hlen2|b2 t2 Hres2 Hlen2 Hbad2
                    |b2 t2 xr2 xg2 xb2 e2 Hres2 Hlen2 Hr2 Hg2 Hb2 Hsend2
                    |b2 t2 xr2 xg2 xb2 Hres2 Hlen2 Hr2 Hg2 Hb2 Hsend2];
    subst;
    destruct (resolved_fun _ _ _ _ _ Hres1 Hres2) as [Hs ->];
    try discriminate Hs; try (injection Hs as ->);
    try (split; reflexivity); try lia;
    try (destruct Hbad1 as [?|[?|?]]; congruence);
    try (destruct Hbad2 as [?|[?|?]]; congruence);
    assert (xr2 = xr1 /\ xg2 = xg1 /\ xb2 = xb1) as (-> & -> & ->)
      by (repeat split; congruence);
    split; congruence.
Qed.

(** Once the lighting report is found, the call is decided by the
    statements that follow: their return value is the value of the call,
    an exception is printed by the outer handler and gives [False], and
    the handle is closed last. *)
Lemma set_color_found R device reports target r g b w s t :
  open device = Ok tt ->
  find_feature_reports device = Ok reports ->
  search_report reports None = Some target ->
  report_truth target = true ->
  patched target r g b (verbose w) s t ->
  set_color (R:=R) device r g b w
  = (Normal match s with
            | Returned success => success
            | _ => false
            end,
     World false (verbose w)
       (trace w ++ [EvOpen; EvFindFeatureReports] ++ t
        ++ match s with
           | Raised e => except_lines e
           | _ => []
           end
        ++ [EvClose])).
Proof.
  intros Hopen Hfind Hsearch Htruth Hpa.
  destruct (set_color_run R device r g b w) as (success & t' & Hrun & Hout).
  rewrite Hrun.
  inversion Hout as [| | |
                     |reports' target' success' t1 _ Hfind' Hsearch' _ Hpa'
                     |reports' target' e t1 _ Hfind' Hsearch' _ Hpa'];
    subst; try congruence;
    assert (target' = target) by congruence; subst target';
    destruct (patched_fun _ _ _ _ _ _ _ _ _ Hpa' Hpa) as [<- <-];
    reflexivity.
Qed.

(** When [open()] raises on a handle that is not open, neither function
    goes further: [set_color] prints the error (and its [winerror] when
    it has one) and returns [False], [inspect_reports] prints its own
    diagnostic; no report is enumerated and [close()] is not called. *)
Theorem open_failure_stops_the_call (R : Type) device r g b w e :
  open device = Err e ->
  opened w = false ->
  set_color (R:=R) device r g b w
  = (Normal false,
     World false (verbose w)
       (trace w
        ++ [EvOpen; EvPrint (LnSetColorError e)]
        ++ match exn_winerror e with
           | Some code => [EvPrint (LnWinError code)]
           | None => []
           end))
  /\ inspect_reports (R:=R) device w
     = (Normal tt,
        World false (verbose w)
          (trace w ++ [EvOpen; EvPrint (LnInspectError e)])).
Proof.
  intros Hopen Hclosed. destruct w as [o v t0]. cbn in Hclosed. subst o.
  split.
  - unfold set_color, def, try_finally, try_except, set_color_body.
    unfold bind at 1. unfold device_open. rewrite Hopen.
    unfold emit. cbn [opened verbose trace].
    rewrite set_color_except_run, close_if_opened_run.
    unfold except_lines. rewrite app_nil_r, <- !app_assoc. reflexivity.
  - unfold inspect_reports, def_none, def, try_finally, try_except.
    unfold bind at 1. unfold device_open. rewrite Hopen.
    unfold print, emit. cbn [opened verbose trace].
    rewrite close_if_opened_run.
    rewrite app_nil_r, <- !app_assoc. reflexivity.
Qed.

(** The theorem on a keyboard that another process holds open. *)
Lemma open_failure_stops_the_call_witness :
  let busy :=
    {| vendor_id := 0x046d; product_id := 0xc229;
       product_name := "G19 Gaming Keyboard";
       open := Err io_error;
       find_feature_reports := Ok [live_report];
       find_output_reports := Ok [];
       find_input_reports := Ok [] |} in
  set_color (R:=unit) busy 10 20 30 module_init
  = (Normal false,
     World false false
       ([] ++ [EvOpen; EvPrint (LnSetColorError io_error)]
        ++ [EvPrint (LnWinError "1167")]))
  /\ inspect_reports (R:=unit) busy module_init
     = (Normal tt,
        World false false ([] ++ [EvOpen; EvPrint (LnInspectError io_error)])).
Proof.
  cbv zeta.
  apply (open_failure_stops_the_call unit
           {| vendor_id := 0x046d; product_id := 0xc229;
              product_name := "G19 Gaming Keyboard";
              open := Err io_error;
              find_feature_reports := Ok [live_report];
              find_output_reports := Ok [];
              find_input_reports := Ok [] |}
           10 20 30 module_init io_error);
    reflexivity.
Defined.

(** When the enumeration of the feature reports raises, [set_color]
    prints the error (and its [winerror] when it has one), closes the
    handle and returns [False]; no report is read and nothing is sent. *)
Theorem enumeration_failure_reported (R : Type) device r g b w e :
  open device = Ok tt ->
  find_feature_reports device = Err e ->
  set_color (R:=R) device r g b w
  = (Normal false,
     World false (verbose w)
       (trace w
        ++ [EvOpen; EvFindFeatureReports; EvPrint (LnSetColorError e)]
        ++ match exn_winerror e with
           | Some code => [EvPrint (LnWinError code)]
           | None => []
           end
        ++ [EvClose])).
Proof.
  intros Hopen Hfind.
  destruct (set_color_run R device r g b w) as (success & t & Hrun & Hout).
  rewrite Hrun. inversion Hout; subst; try congruence.
  assert (e0 = e) by congruence. subst e0. reflexivity.
Qed.

(** The theorem on the keyboard that fails every enumeration. *)
Lemma enumeration_failure_reported_witness :
  set_color (R:=unit) g19_mute 10 20 30 module_init
  = (Normal false,
     World false false
       ([] ++ [EvOpen; EvFindFeatureReports;
               EvPrint (LnSetColorError io_error)]
        ++ [EvPrint (LnWinError "1167")]
        ++ [EvClose])).
Proof.
  apply (enumeration_failure_reported unit g19_mute 10 20 30 module_init
           io_error);
    reflexivity.
Defined.

(** A feature report with identifier 7 whose object is false under
    Python's truth test is handled like a missing report: the same two
    lines are printed, the report is neither read nor written, the handle
    is closed and the result is [False]. *)
Theorem false_report_counts_as_missing (R : Type)
    device reports target r g b w :
  open device = Ok tt ->
  find_feature_reports device = Ok reports ->
  search_report reports None = Some target ->
  report_truth target = false ->
  set_color (R:=R) device r g b w
  = (Normal false,
     World false (verbose w)
       (trace w ++ [EvOpen; EvFindFeatureReports; EvPrint LnReportNotFound;
                    EvPrint LnTryInspect; EvClose])).
Proof.
  intros Hopen Hfind Hsearch Htruth.
  destruct (set_color_run R device r g b w) as (success & t & Hrun & Hout).
  rewrite Hrun. inversion Hout; subst; try congruence.
Qed.

(** The theorem on a lighting report without items. *)
Lemma false_report_counts_as_missing_witness :
  let empty_report :=
    {| report_id := 7; report_truth := false; get_raw_data := Ok snapshot32;
       report_len := Ok 0; send := fun _ => Ok tt |} in
  set_color (R:=unit) (g19 [empty_report]) 10 20 30 module_init
  = (Normal false,
     World false false
       ([] ++ [EvOpen; EvFindFeatureReports; EvPrint LnReportNotFound;
               EvPrint LnTryInspect; EvClose])).
Proof.
  cbv zeta.
  apply (false_report_counts_as_missing unit _
           [{| report_id := 7; report_truth := false;
               get_raw_data := Ok snapshot32;
               report_len := Ok 0; send := fun _ => Ok tt |}]
           {| report_id := 7; report_truth := false;
              get_raw_data := Ok snapshot32;
              report_len := Ok 0; send := fun _ => Ok tt |});
    reflexivity.
Defined.

(** When the send primitive raises on the patched buffer, [set_color]
    has called it once; the error is printed, followed by its [winerror]
    when it has one, the handle is closed and the result is [False]; the
    line "Comando de color enviado." is not printed. *)
Theorem transmission_failure_reported (R : Type)
    device reports target buffer xr xg xb r g b e w w1 :
  open device = Ok tt ->
  find_feature_reports device = Ok reports ->
  search_report reports None = Some target ->
  report_truth target = true ->
  resolve_buffer target
    (World true (verbose w) (trace w ++ [EvOpen; EvFindFeatureReports]))
  = (Normal buffer, w1) ->
  (BLUE_BYTE_INDEX < length buffer)%nat ->
  byte_of_int r = Some xr -> byte_of_int g = Some xg ->
  byte_of_int b = Some xb ->
  send target (patch buffer xr xg xb) = Err e ->
  set_color (R:=R) device r g b w
  = (Normal false,
     World false (verbose w)
       (trace w1
        ++ dump (verbose w) (patch buffer xr xg xb) r g b
        ++ [EvSend LIGHTING_REPORT_ID (patch buffer xr xg xb);
            EvPrint (LnSetColorError e)]
        ++ match exn_winerror e with
           | Some code => [EvPrint (LnWinError code)]
           | None => []
           end
        ++ [EvClose])).
Proof.
  intros Hopen Hfind Hsearch Htruth Hresolve Hlen Hr Hg Hb Hsend.
  apply resolve_buffer_Normal in Hresolve as (t & -> & Hres).
  destruct (search_report_Some _ _ Hsearch) as [Hid _].
  rewrite (set_color_found R _ _ _ r g b w _ _ Hopen Hfind Hsearch Htruth
             (pa_send_raises _ _ _ _ _ _ _ _ _ _ _ Hres Hlen Hr Hg Hb Hsend)).
  cbn [opened verbose trace]. rewrite Hid. unfold except_lines.
  do 2 f_equal. rewrite <- !app_assoc. reflexivity.
Qed.

(** The theorem on the keyboard that refuses the transfer. *)
Lemma transmission_failure_reported_witness :
  set_color (R:=unit) (g19 [refused_report]) 10 20 30 module_init
  = (Normal false,
     World false false
       ([EvOpen; EvFindFeatureReports; EvGetRawData 7]
        ++ dump false (patch snapshot32 x0a x14 x1e) 10 20 30
        ++ [EvSend LIGHTING_REPORT_ID (patch snapshot32 x0a x14 x1e);
            EvPrint (LnSetColorError io_error)]
        ++ [EvPrint (LnWinError "1167")]
        ++ [EvClose])).
Proof.
  apply (transmission_failure_reported unit (g19 [refused_report])
           [refused_report] refused_report snapshot32 x0a x14 x1e 10 20 30
           io_error module_init
           (World true false [EvOpen; EvFindFeatureReports; EvGetRawData 7]));
    try reflexivity.
  unfold BLUE_BYTE_INDEX, snapshot32. cbn [length]. rewrite length_replicate.
  lia.
Defined.

(** When [len(report)] raises, no buffer is allocated and [set_color]
    returns [False].  After an empty snapshot the inner handler takes the
    exception of [len()] for a failure of [get_raw_data()]: it prints the
    raw-data error with that exception, calls [len()] a second time, and
    prints the critical error.  After a raised [get_raw_data()] both
    exceptions are printed, each in its own line, and [len()] is called
    once. *)
Theorem declared_length_unavailable (R : Type)
    device reports target r g b w e_size :
  open device = Ok tt ->
  find_feature_reports device = Ok reports ->
  search_report reports None = Some target ->
  report_truth target = true ->
  report_len target = Err e_size ->
  (get_raw_data target = Ok [] ->
   set_color (R:=R) device r g b w
   = (Normal false,
      World false (verbose w)
        (trace w ++ [EvOpen; EvFindFeatureReports;
                     EvGetRawData LIGHTING_REPORT_ID;
                     EvLen LIGHTING_REPORT_ID;
                     EvPrint (LnRawError e_size);
                     EvLen LIGHTING_REPORT_ID;
                     EvPrint (LnSizeError e_size); EvClose])))
  /\ (forall e_get,
        get_raw_data target = Err e_get ->
        set_color (R:=R) device r g b w
        = (Normal false,
           World false (verbose w)
             (trace w ++ [EvOpen; EvFindFeatureReports;
                          EvGetRawData LIGHTING_REPORT_ID;
                          EvPrint (LnRawError e_get);
                          EvLen LIGHTING_REPORT_ID;
                          EvPrint (LnSizeError e_size); EvClose]))).
Proof.
  intros Hopen Hfind Hsearch Htruth Hlen.
  destruct (search_report_Some _ _ Hsearch) as [Hid _]. rewrite <- Hid.
  split.
  - intros Hraw.
    rewrite (set_color_found R _ _ _ r g b w _ _ Hopen Hfind Hsearch Htruth
               (pa_no_buffer _ _ _ _ _ _
                  (res_empty_len_raises _ _ Hraw Hlen))).
    reflexivity.
  - intros e_get Hraw.
    rewrite (set_color_found R _ _ _ r g b w _ _ Hopen Hfind Hsearch Htruth
               (pa_no_buffer _ _ _ _ _ _
                  (res_error_len_raises _ _ _ Hraw Hlen))).
    reflexivity.
Qed.

(** The theorem on a lighting report with an empty snapshot and no
    [len()]. *)
Lemma declared_length_unavailable_witness :
  let no_len := Exn "object of type 'HidReport' has no len()" None in
  let opaque_report :=
    {| report_id := 7; report_truth := true; get_raw_data := Ok [];
       report_len := Err no_len; send := fun _ => Ok tt |} in
  set_color (R:=unit) (g19 [opaque_report]) 10 20 30 module_init
  = (Normal false,
     World false false
       [EvOpen; EvFindFeatureReports; EvGetRawData 7; EvLen 7;
        EvPrint (LnRawError no_len); EvLen 7;
        EvPrint (LnSizeError no_len); EvClose]).
Proof.
  cbv zeta.
  destruct (declared_length_unavailable unit
              (g19 [{| report_id := 7; report_truth := true;
                       get_raw_data := Ok [];
                       report_len :=
                         Err (Exn "object of type 'HidReport' has no len()"
                                None);
                       send := fun _ => Ok tt |}])
              _ _ 10 20 30 module_init _
              eq_refl eq_refl eq_refl eq_refl eq_refl)
    as [Hempty _].
  apply Hempty. reflexivity.
Defined.

Lemma patch_fresh_buffer n xr xg xb :
  4 <= n ->
  patch (fresh_buffer n) xr xg xb
  = x07 :: xr :: xg :: xb :: replicate (Z.to_nat n - 4) x00.
Proof.
  intros Hn. unfold patch, fresh_buffer.
  remember (Z.to_nat n - 4)%nat as k eqn:Hk.
  replace (Z.to_nat n) with (S (S (S (S k)))) by lia.
  reflexivity.
Qed.

(** The fallback end to end.  When the snapshot of the lighting report is
    empty or cannot be read, its declared length is at least 4, [r], [g],
    [b] are byte values and the send primitive returns, [set_color]
    allocates one buffer of the declared length and sends it once: byte 0
    is 7, bytes 1 to 3 are [r], [g], [b], every other byte is 0; the
    result is [True]. *)
Theorem fallback_buffer_sent (R : Type)
    device reports target report_size r g b w :
  open device = Ok tt ->
  find_feature_reports device = Ok reports ->
  search_report reports None = Some target ->
  report_truth target = true ->
  get_raw_data target = Ok [] \/ (exists e, get_raw_data target = Err e) ->
  report_len target = Ok report_size ->
  4 <= report_size ->
  0 <= r < 256 -> 0 <= g < 256 -> 0 <= b < 256 ->
  (forall buffer, send target buffer = Ok tt) ->
  exists buffer t,
    set_color (R:=R) device r g b w
    = (Normal true, World false (verbose w) (trace w ++ t))
    /\ sends t = [(LIGHTING_REPORT_ID, buffer)]
    /\ allocations t = [report_size]
    /\ int_of_byte <$> buffer
       = [LIGHTING_REPORT_ID; r; g; b]
         ++ replicate (Z.to_nat report_size - 4) 0.
Proof.
  intros Hopen Hfind Hsearch Htruth Hraw Hlen Hsize Hr Hg Hb Hsend.
  destruct (byte_of_int_in_range r Hr) as (xr & Hxr & Hir).
  destruct (byte_of_int_in_range g Hg) as (xg & Hxg & Hig).
  destruct (byte_of_int_in_range b Hb) as (xb & Hxb & Hib).
  destruct (search_report_Some _ _ Hsearch) as [Hid _].
  assert (Hres : exists t0,
             resolved target (Normal (fresh_buffer report_size)) t0
             /\ allocations t0 = [report_size]).
  { destruct Hraw as [Hraw|[e Hraw]]; eexists; split.
    - apply (res_empty_fresh _ _ Hraw Hlen). lia.
    - reflexivity.
    - apply (res_error_fresh _ _ _ Hraw Hlen). lia.
    - reflexivity. }
  destruct Hres as (t0 & Hres & Halloc).
  assert (Hlong : (3 < length (fresh_buffer report_size))%nat)
    by (rewrite length_fresh_buffer; lia).
  exists (patch (fresh_buffer report_size) xr xg xb). eexists.
  split.
  { apply (set_color_found R _ _ _ r g b w _ _ Hopen Hfind Hsearch Htruth
             (pa_sent _ _ _ _ _ _ _ _ _ _ Hres Hlong Hxr Hxg Hxb
                (Hsend _))). }
  split.
  { rewrite !sends_app, (resolved_sends _ _ _ Hres), sends_dump, Hid.
    reflexivity. }
  split.
  { rewrite !allocations_app, Halloc, allocations_dump. reflexivity. }
  rewrite patch_fresh_buffer by assumption.
  cbn [fmap list_fmap app]. rewrite fmap_replicate.
  rewrite Hir, Hig, Hib. reflexivity.
Qed.

(** The theorem on a lighting report that cannot be read and declares 8
    bytes. *)
Lemma fallback_buffer_sent_witness :
  let unread_report :=
    {| report_id := 7; report_truth := true; get_raw_data := Err io_error;
       report_len := Ok 8; send := fun _ => Ok tt |} in
  exists buffer t,
    set_color (R:=unit) (g19 [unread_report]) 10 20 30 module_init
    = (Normal true, World false false ([] ++ t))
    /\ sends t = [(LIGHTING_REPORT_ID, buffer)]
    /\ allocations t = [8]
    /\ int_of_byte <$> buffer
       = [LIGHTING_REPORT_ID; 10; 20; 30] ++ replicate (Z.to_nat 8 - 4) 0.
Proof.
  cbv zeta.
  apply (fallback_buffer_sent unit
           (g19 [{| report_id := 7; report_truth := true;
                    get_raw_data := Err io_error;
                    report_len := Ok 8; send := fun _ => Ok tt |}])
           [{| report_id := 7; report_truth := true;
               get_raw_data := Err io_error;
               report_len := Ok 8; send := fun _ => Ok tt |}]
           {| report_id := 7; report_truth := true;
              get_raw_data := Err io_error;
              report_len := Ok 8; send := fun _ => Ok tt |}
           8 10 20 30 module_init);
    first [reflexivity | lia | right; eexists; reflexivity].
Defined.

(** What a successful call shows of the verbose branch: with the flag
    set, the "sending" line with [r], [g], [b] and the dump of exactly
    the buffer that is sent are printed right before the send; with the
    flag unset the send follows the buffer resolution directly.  Either
    way the call ends with the send, the "sent" line and the close. *)
Theorem dump_shows_the_sent_buffer (R : Type) device r g b w w' :
  set_color (R:=R) device r g b w = (Normal true, w') ->
  exists t buffer,
    trace w'
    = trace w ++ t
      ++ (if verbose w
          then [EvPrint (LnSending r g b); EvPrint (LnHexDump buffer)]
          else [])
      ++ [EvSend LIGHTING_REPORT_ID buffer; EvPrint LnSent; EvClose]
    /\ sends t = []
    /\ no_verbose_line t.
Proof.
  intros Hcall.
  destruct (set_color_run R device r g b w) as (success & t & Hrun & Hout).
  rewrite Hrun in Hcall. injection Hcall as -> <-.
  inversion Hout as [| | | |reports target success' t1 Hopen Hfind Hsearch
                             Htruth Hpa|]; subst.
  inversion Hpa as [| | | |buffer t2 xr xg xb Hres Hlen Hr Hg Hb Hsend];
    subst.
  destruct (search_report_Some _ _ Hsearch) as [Hid _].
  exists ([EvOpen; EvFindFeatureReports] ++ t2), (patch buffer xr xg xb).
  split; [|split].
  - cbn [trace]. unfold dump. rewrite Hid, <- !app_assoc. reflexivity.
  - rewrite sends_app, (resolved_sends _ _ _ Hres). reflexivity.
  - apply quiet_no_verbose_line. inversion Hres; subst; reflexivity.
Qed.

(** The theorem on a call made with the flag set. *)
Lemma dump_shows_the_sent_buffer_witness :
  exists t buffer,
    trace (snd (set_color (R:=unit) (g19 [live_report]) 10 20 30
                  (World false true [])))
    = trace (World false true []) ++ t
      ++ (if verbose (World false true [])
          then [EvPrint (LnSending 10 20 30); EvPrint (LnHexDump buffer)]
          else [])
      ++ [EvSend LIGHTING_REPORT_ID buffer; EvPrint LnSent; EvClose]
    /\ sends t = []
    /\ no_verbose_line t.
Proof.
  apply (dump_shows_the_sent_buffer unit (g19 [live_report]) 10 20 30
           (World false true [])).
  reflexivity.
Defined.

(** * More of [set_color]: every call *)

Lemma patched_sends target r g b v s t :
  patched target r g b v s t ->
  (sends t = [] /\ s <> Returned true)
  \/ exists buffer,
       sends t = [(report_id target, buffer)]
       /\ (BLUE_BYTE_INDEX < length buffer)%nat
       /\ s = match send target buffer with
              | Ok _ => Returned true
              | Err e => Raised e
              end.
Proof.
  intros Hpa.
  inversion Hpa as [t1 Hres|b1 t1 Hres Hlen|b1 t1 Hres Hlen Hbad
                   |b1 t1 xr xg xb e Hres Hlen Hr Hg Hb Hsend
                   |b1 t1 xr xg xb Hres Hlen Hr Hg Hb Hsend];
    subst; rewrite ?sends_app, (resolved_sends _ _ _ Hres), ?sends_dump.
  - left. split; [reflexivity|discriminate].
  - left. split; [reflexivity|discriminate].
  - left. split; [reflexivity|discriminate].
  - right. exists (patch b1 xr xg xb).
    rewrite Hsend, length_patch. auto.
  - right. exists (patch b1 xr xg xb).
    rewrite Hsend, length_patch. auto.
Qed.

(** A call of [set_color] hands at most one buffer to a send primitive:
    either nothing is sent and the result is [False], or one buffer that
    has the offsets 1, 2, 3 is sent to the first feature report with
    identifier 7, and the result is [True] exactly when that send
    returned. *)
Theorem at_most_one_send (R : Type) device r g b w :
  exists success t,
    set_color (R:=R) device r g b w
    = (Normal success, World false (verbose w) (trace w ++ t))
    /\ (sends t = [] /\ success = false
        \/ exists reports target buffer,
             find_feature_reports device = Ok reports
             /\ search_report reports None = Some target
             /\ sends t = [(LIGHTING_REPORT_ID, buffer)]
             /\ (BLUE_BYTE_INDEX < length buffer)%nat
             /\ success = match send target buffer with
                          | Ok _ => true
                          | Err _ => false
                          end).
Proof.
  destruct (set_color_run R device r g b w) as (success & t & Hrun & Hout).
  exists success, t. split; [exact Hrun|].
  inversion Hout as [e Hopen|e Hopen Hfind|reports Hopen Hfind Hsearch
                    |reports target Hopen Hfind Hsearch Htruth
                    |reports target success' t1 Hopen Hfind Hsearch Htruth Hpa
                    |reports target e t1 Hopen Hfind Hsearch Htruth Hpa];
    subst; rewrite ?sends_app, ?sends_except_lines.
  - left. now destruct (opened w).
  - left. auto.
  - left. auto.
  - left. auto.
  - destruct (search_report_Some _ _ Hsearch) as [Hid _].
    destruct (patched_sends _ _ _ _ _ _ _ Hpa)
      as [[-> Hs]|(buffer & -> & Hlen & Hs)].
    + left. split; [reflexivity|]. destruct success; congruence.
    + right. exists reports, target, buffer. rewrite Hid.
      repeat split; try assumption.
      destruct (send target buffer); congruence.
  - destruct (search_report_Some _ _ Hsearch) as [Hid _].
    destruct (patched_sends _ _ _ _ _ _ _ Hpa)
      as [[-> Hs]|(buffer & -> & Hlen & Hs)].
    + left. auto.
    + right. exists reports, target, buffer. rewrite Hid.
      repeat split; try assumption.
      destruct (send target buffer); congruence.
Qed.

(** What [set_color] may do once it has called [open()]: no second
    [open()], no enumeration of output or input reports, and no read,
    length query or send on a report whose identifier is not 7. *)
Definition after_open (ev : event) : bool :=
  match ev with
  | EvOpen | EvFindOutputReports | EvFindInputReports => false
  | EvGetRawData rid | EvLen rid | EvSend rid _ =>
      rid =? LIGHTING_REPORT_ID
  | _ => true
  end.

Lemma after_open_except_lines e : forallb after_open (except_lines e) = true.
Proof. unfold except_lines. now destruct (exn_winerror e). Qed.

Lemma after_open_dump v buffer r g b :
  forallb after_open (dump v buffer r g b) = true.
Proof. now destruct v. Qed.

Lemma after_open_resolved target s t :
  report_id target = LIGHTING_REPORT_ID ->
  resolved target s t -> forallb after_open t = true.
Proof. intros Hid Hres. destruct Hres; cbn; rewrite Hid; reflexivity. Qed.

Lemma after_open_patched target r g b v s t :
  report_id target = LIGHTING_REPORT_ID ->
  patched target r g b v s t -> forallb after_open t = true.
Proof.
  intros Hid Hpa.
  destruct Hpa as [t Hres|buffer t Hres _|buffer t Hres _ _
                  |buffer t xr xg xb e Hres _ _ _ _ _
                  |buffer t xr xg xb Hres _ _ _ _ _];
    rewrite ?forallb_app, (after_open_resolved _ _ _ Hid Hres),
      ?after_open_dump;
    cbn; rewrite ?Hid; reflexivity.
Qed.

(** Every call of [set_color] starts with its one call of [open()];
    after it the call never enumerates output or input reports and
    reads, measures and writes no report other than one with identifier
    7, whatever the device holds and answers. *)
Theorem only_the_lighting_report_is_touched (R : Type) device r g b w :
  exists t,
    trace (snd (set_color (R:=R) device r g b w)) = trace w ++ EvOpen :: t
    /\ forallb after_open t = true.
Proof.
  destruct (set_color_run R device r g b w) as (success & t & Hrun & Hout).
  rewrite Hrun. cbn [snd trace].
  inversion Hout as [e Hopen|e Hopen Hfind|reports Hopen Hfind Hsearch
                    |reports target Hopen Hfind Hsearch Htruth
                    |reports target success' t1 Hopen Hfind Hsearch Htruth Hpa
                    |reports target e t1 Hopen Hfind Hsearch Htruth Hpa];
    subst.
  - eexists. split; [reflexivity|].
    rewrite forallb_app, after_open_except_lines. now destruct (opened w).
  - exists ([EvFindFeatureReports] ++ except_lines e ++ [EvClose]).
    split; [reflexivity|].
    now rewrite !forallb_app, after_open_except_lines.
  - eexists. split; reflexivity.
  - eexists. split; reflexivity.
  - destruct (search_report_Some _ _ Hsearch) as [Hid _].
    exists ([EvFindFeatureReports] ++ t1 ++ [EvClose]).
    split; [reflexivity|].
    now rewrite !forallb_app, (after_open_patched _ _ _ _ _ _ _ Hid Hpa).
  - destruct (search_report_Some _ _ Hsearch) as [Hid _].
    exists ([EvFindFeatureReports] ++ t1 ++ except_lines e ++ [EvClose]).
    split; [reflexivity|].
    now rewrite !forallb_app, (after_open_patched _ _ _ _ _ _ _ Hid Hpa),
      after_open_except_lines.
Qed.

(** * More of [inspect_reports] *)

Section Only.

(** The events a statement is allowed to emit. *)
Variable P : event -> bool.

(** Every event that [m] emits satisfies [P]. *)
Definition only {R A} (m : Py R A) : Prop :=
  forall w, exists t,
    trace (snd (m w)) = trace w ++ t /\ forallb P t = true.

Lemma only_pure {R A} (s : signal R A) : only (fun w => (s, w)).
Proof. intros w. exists []. cbn. now rewrite app_nil_r. Qed.

Lemma only_emit {R A} (s : signal R A) ev :
  P ev = true -> only (fun w => (s, emit ev w)).
Proof. intros Hev w. exists [ev]. cbn. now rewrite Hev. Qed.

Lemma only_answer {R A} ev (a : result A) :
  P ev = true -> only (answer (R:=R) ev a).
Proof.
  intros Hev w. exists [ev]. unfold answer. cbn [forallb]. rewrite Hev.
  now destruct a.
Qed.

Lemma only_open {R} device : P EvOpen = true -> only (device_open (R:=R) device).
Proof.
  intros Hev w. exists [EvOpen]. unfold device_open. cbn [forallb].
  rewrite Hev. now destruct (open device).
Qed.

Lemma only_close_if_opened {R} device :
  P EvClose = true -> only (close_if_opened (R:=R) device).
Proof.
  intros Hev [o v t]. rewrite close_if_opened_run. cbn [snd trace].
  eexists. split; [reflexivity|]. destruct o; cbn; now rewrite ?Hev.
Qed.

Lemma only_bind {R A B} (m : Py R A) (k : A -> Py R B) :
  only m -> (forall a, only (k a)) -> only (bind m k).
Proof.
  intros Hm Hk w. unfold bind. destruct (Hm w) as (t & Hw & Ht).
  destruct (m w) as [[a|r|e] w1]; cbn [snd] in *; eauto.
  destruct (Hk a w1) as (t' & Hw' & Ht').
  exists (t ++ t'). rewrite Hw', Hw, forallb_app, Ht, Ht'.
  now rewrite app_assoc.
Qed.

Lemma only_try_except {R A} (body : Py R A) handler :
  only body -> (forall e, only (handler e)) ->
  only (try_except body handler).
Proof.
  intros Hm Hk w. unfold try_except. destruct (Hm w) as (t & Hw & Ht).
  destruct (body w) as [[a|r|e] w1]; cbn [snd] in *; eauto.
  destruct (Hk e w1) as (t' & Hw' & Ht').
  exists (t ++ t'). rewrite Hw', Hw, forallb_app, Ht, Ht'.
  now rewrite app_assoc.
Qed.

Lemma only_try_finally {R A} (body : Py R A) final :
  only body -> only final -> only (try_finally body final).
Proof.
  intros Hm Hf w. unfold try_finally. destruct (Hm w) as (t & Hw & Ht).
  destruct (body w) as [s w1]; cbn [snd] in *.
  destruct (Hf w1) as (t' & Hw' & Ht').
  exists (t ++ t'). rewrite forallb_app, Ht, Ht', app_assoc, <- Hw.
  destruct (final w1) as [[a|r|e] w2]; cbn [snd] in *; auto.
Qed.

Lemma only_def {R A} (body : Py A A) : only body -> only (def (R:=R) body).
Proof.
  intros Hm w. unfold def. destruct (Hm w) as (t & Hw & Ht).
  destruct (body w) as [[a|r|e] w1]; cbn [snd] in *; eauto.
Qed.

Lemma only_print_reports {R} reports :
  (forall rid, P (EvGetRawData rid) = true) ->
  (forall l, P (EvPrint l) = true) ->
  only (print_reports (R:=R) reports).
Proof.
  intros Hget Hprint.
  induction reports as [|report rest IH]; cbn [print_reports].
  - apply only_pure.
  - apply only_bind; [apply only_answer, Hget|intros raw].
    apply only_bind; [apply only_emit, Hprint|intros _]. exact IH.
Qed.

End Only.

(** What an inspection may do: everything except sending a buffer,
    allocating one, and asking for the length of a report. *)
Definition read_only (ev : event) : bool :=
  match ev with
  | EvSend _ _ | EvBytearray _ | EvLen _ => false
  | _ => true
  end.

Lemma read_only_sends t : forallb read_only t = true -> sends t = [].
Proof.
  induction t as [|ev t IH]; [reflexivity|].
  cbn [forallb]. intros [Hev Ht]%andb_prop.
  change (ev :: t) with ([ev] ++ t). rewrite sends_app, (IH Ht).
  destruct ev; try discriminate; reflexivity.
Qed.

Lemma read_only_allocations t :
  forallb read_only t = true -> allocations t = [].
Proof.
  induction t as [|ev t IH]; [reflexivity|].
  cbn [forallb]. intros [Hev Ht]%andb_prop.
  change (ev :: t) with ([ev] ++ t). rewrite allocations_app, (IH Ht).
  destruct ev; try discriminate; reflexivity.
Qed.

Lemma inspect_reports_read_only R device :
  only read_only (inspect_reports (R:=R) device).
Proof.
  unfold inspect_reports, def_none.
  apply only_def, only_try_finally;
    [|now apply only_close_if_opened].
  apply only_try_except; [|intros e; now apply only_emit].
  unfold device_find_feature_reports, device_find_output_reports,
    device_find_input_reports.
  repeat first
    [ apply only_print_reports; reflexivity
    | apply only_open; reflexivity
    | apply only_answer; reflexivity
    | apply only_emit; reflexivity
    | apply only_bind; [|intros ?] ].
Qed.

(** [inspect_reports] only reads: whatever the device holds and answers,
    and wherever the inspection stops, no buffer is sent to the device
    and none is allocated. *)
Theorem inspection_sends_nothing (R : Type) device w :
  exists t,
    trace (snd (inspect_reports (R:=R) device w)) = trace w ++ t
    /\ sends t = []
    /\ allocations t = [].
Proof.
  destruct (inspect_reports_read_only R device w) as (t & Hw & Ht).
  exists t. split; [exact Hw|].
  split; [now apply read_only_sends|now apply read_only_allocations].
Qed.

Lemma print_reports_stops R before bad after e w :
  Forall readable before ->
  get_raw_data bad = Err e ->
  print_reports (R:=R) (before ++ bad :: after) w
  = (Raised e,
     World (opened w) (verbose w)
       (trace w ++ listing before ++ [EvGetRawData (report_id bad)])).
Proof.
  intros Hall Hbad. revert w.
  induction Hall as [|report rest [raw Hraw] _ IH]; intros w.
  - cbn [app print_reports listing flat_map]. unfold bind at 1.
    unfold report_get_raw_data, answer. rewrite Hbad. reflexivity.
  - cbn [app print_reports listing flat_map]. unfold bind at 1.
    unfold report_get_raw_data, answer. rewrite Hraw.
    unfold bind at 1. unfold print at 1. rewrite IH.
    unfold listing. trace_eq.
Qed.

(** An unreadable feature report ends the inspection: the feature
    reports before it are listed, the error of its [get_raw_data()] is
    printed and the handle is closed; the reports after it are not read,
    and the output and input reports are not even enumerated. *)
Theorem inspection_stops_at_unreadable_report (R : Type)
    device before bad after e w :
  open device = Ok tt ->
  find_feature_reports device = Ok (before ++ bad :: after) ->
  Forall readable before ->
  get_raw_data bad = Err e ->
  inspect_reports (R:=R) device w
  = (Normal tt,
     World false (verbose w)
       (trace w
        ++ [EvOpen; EvPrint LnInspectBegin; EvPrint LnFeatureHeader;
            EvFindFeatureReports]
        ++ listing before
        ++ [EvGetRawData (report_id bad); EvPrint (LnInspectError e);
            EvClose])).
Proof.
  intros Hopen Hfeatures Hall Hbad. destruct w as [o v t0].
  unfold inspect_reports, def_none, def, try_finally, try_except.
  unfold bind at 1. unfold device_open. rewrite Hopen.
  unfold bind at 1 2 3. unfold print at 1 2.
  unfold device_find_feature_reports, answer at 1. rewrite Hfeatures.
  unfold bind at 1. rewrite (print_reports_stops _ _ _ _ _ _ Hall Hbad).
  unfold print, emit, set_opened. cbn [opened verbose trace].
  rewrite close_if_opened_run.
  rewrite <- !app_assoc. reflexivity.
Qed.

(** The theorem on a keyboard whose second feature report cannot be
    read. *)
Lemma inspection_stops_at_unreadable_report_witness :
  inspect_reports (R:=unit) (g19 [other_report; blind_report; live_report])
    module_init
  = (Normal tt,
     World false false
       ([] ++ [EvOpen; EvPrint LnInspectBegin; EvPrint LnFeatureHeader;
               EvFindFeatureReports]
        ++ listing [other_report]
        ++ [EvGetRawData (report_id blind_report);
            EvPrint (LnInspectError io_error); EvClose])).
Proof.
  apply (inspection_stops_at_unreadable_report unit
           (g19 [other_report; blind_report; live_report])
           [other_report] blind_report [live_report] io_error module_init);
    try reflexivity.
  repeat constructor. eexists. reflexivity.
Defined.

(** * More of [main] *)

(** A run with [--inspect] changes nothing on any device: whatever is
    attached and however it answers, no buffer is sent and none is
    allocated. *)
Theorem inspect_run_sends_nothing all_devices args :
  arg_inspect args = true ->
  sends (trace (snd (run all_devices args))) = []
  /\ allocations (trace (snd (run all_devices args))) = [].
Proof.
  intros Hinspect. unfold run.
  destruct (List.find is_g19 all_devices) as [device|] eqn:Hfind.
  - rewrite (main_inspect _ _ _ _ Hfind Hinspect). cbn [snd].
    destruct (inspect_reports_read_only Z device
                (World (opened module_init) (verbose module_init)
                   (trace module_init ++ found_lines device)))
      as (t & -> & Ht).
    cbn [trace module_init app].
    rewrite sends_app, allocations_app, (read_only_sends _ Ht),
      (read_only_allocations _ Ht).
    split; reflexivity.
  - rewrite (main_not_found _ _ _ Hfind). split; reflexivity.
Qed.

(** The theorem on a host with a mouse and a keyboard. *)
Lemma inspect_run_sends_nothing_witness :
  sends (trace (snd (run [mouse; g19 [live_report]]
                       (Build_Namespace 10 20 30 true)))) = []
  /\ allocations (trace (snd (run [mouse; g19 [live_report]]
                                (Build_Namespace 10 20 30 true)))) = [].
Proof.
  apply (inspect_run_sends_nothing [mouse; g19 [live_report]]
           (Build_Namespace 10 20 30 true)).
  reflexivity.
Defined.

Lemma sends_print l t : sends (EvPrint l :: t) = sends t.
Proof. reflexivity. Qed.

Lemma outcome_true_sends device r g b o v t :
  set_color_outcome device r g b o v true t ->
  exists buffer,
    sends t = [(LIGHTING_REPORT_ID, buffer)]
    /\ int_of_byte <$> buffer !! RED_BYTE_INDEX = Some r
    /\ int_of_byte <$> buffer !! GREEN_BYTE_INDEX = Some g
    /\ int_of_byte <$> buffer !! BLUE_BYTE_INDEX = Some b.
Proof.
  intros Hout.
  inversion Hout as [| | | |reports target success' t1 Hopen Hfind Hsearch
                             Htruth Hpa|]; subst.
  inversion Hpa as [| | | |buffer t2 xr xg xb Hres Hlen Hr Hg Hb Hsend];
    subst.
  destruct (search_report_Some _ _ Hsearch) as [Hid _].
  apply byte_of_int_Some in Hr as [Hr _], Hg as [Hg _], Hb as [Hb _].
  exists (patch buffer xr xg xb).
  rewrite !sends_app, (resolved_sends _ _ _ Hres), sends_dump, Hid.
  rewrite patch_red, patch_green, patch_blue by assumption.
  cbn [fmap option_fmap option_map]. rewrite Hr, Hg, Hb. auto.
Qed.

(** Exit status 0 without [--inspect] means the colour was sent: a
    device with the G19's identifiers was found and the run handed
    exactly one buffer to the send primitive of its report 7, holding the
    [--r], [--g], [--b] values of the command line at offsets 1, 2, 3. *)
Theorem exit_0_means_colour_sent all_devices args :
  arg_inspect args = false ->
  fst (run all_devices args) = 0 ->
  exists device buffer,
    List.find is_g19 all_devices = Some device
    /\ sends (trace (snd (run all_devices args)))
       = [(LIGHTING_REPORT_ID, buffer)]
    /\ int_of_byte <$> buffer !! RED_BYTE_INDEX = Some (arg_r args)
    /\ int_of_byte <$> buffer !! GREEN_BYTE_INDEX = Some (arg_g args)
    /\ int_of_byte <$> buffer !! BLUE_BYTE_INDEX = Some (arg_b args).
Proof.
  intros Hinspect. unfold run.
  destruct (List.find is_g19 all_devices) as [device|] eqn:Hfind.
  2:{ rewrite (main_not_found _ _ _ Hfind). discriminate. }
  destruct (main_set_color _ _ _ module_init Hfind Hinspect)
    as (success & w2 & Hcall & ->).
  cbn [fst snd exit_status]. intros Hstatus.
  destruct success; [|discriminate].
  destruct (set_color_run Z device (arg_r args) (arg_g args) (arg_b args)
              (at_set_color_call device args module_init))
    as (success & t & Hrun & Hout).
  rewrite Hrun in Hcall. injection Hcall as -> <-.
  destruct (outcome_true_sends _ _ _ _ _ _ _ Hout)
    as (buffer & Hsends & Hoffsets).
  exists device, buffer. split; [reflexivity|]. split; [|exact Hoffsets].
  unfold at_set_color_call, emit. cbn [opened verbose trace module_init].
  rewrite sends_app, !sends_print, Hsends. reflexivity.
Qed.

(** The theorem on a host with a mouse and a keyboard. *)
Lemma exit_0_means_colour_sent_witness :
  exists device buffer,
    List.find is_g19 [mouse; g19 [live_report]] = Some device
    /\ sends (trace (snd (run [mouse; g19 [live_report]]
                            (Build_Namespace 10 20 30 false))))
       = [(LIGHTING_REPORT_ID, buffer)]
    /\ int_of_byte <$> buffer !! RED_BYTE_INDEX
       = Some (arg_r (Build_Namespace 10 20 30 false))
    /\ int_of_byte <$> buffer !! GREEN_BYTE_INDEX
       = Some (arg_g (Build_Namespace 10 20 30 false))
    /\ int_of_byte <$> buffer !! BLUE_BYTE_INDEX
       = Some (arg_b (Build_Namespace 10 20 30 false)).
Proof.
  apply (exit_0_means_colour_sent [mouse; g19 [live_report]]
           (Build_Namespace 10 20 30 false));
    reflexivity.
Defined.

Lemma opens_app t1 t2 : opens (t1 ++ t2) = (opens t1 + opens t2)%nat.
Proof. unfold opens. now rewrite List.filter_app, length_app. Qed.

Lemma body_opens v t : forallb (body_event v) t = true -> opens t = 0%nat.
Proof.
  induction t as [|ev t IH]; [reflexivity|].
  cbn [forallb]. intros [Hev Ht]%andb_prop.
  change (ev :: t) with ([ev] ++ t). rewrite opens_app, (IH Ht).
  destruct ev; try discriminate; reflexivity.
Qed.

Lemma trace_World o v t : trace (World o v t) = t.
Proof. reflexivity. Qed.

(** The event is a printed line. *)
Definition is_plain_print (ev : event) : bool :=
  match ev with
  | EvPrint _ => true
  | _ => false
  end.

(** The trace of a run that found [device]: printed lines, the one
    [open()], the body of the function that was called, its [close()]
    if the handle was open, printed lines. *)
Lemma run_shape all_devices args device :
  List.find is_g19 all_devices = Some device ->
  exists pre t post,
    snd (run all_devices args)
    = World false false
        (pre ++ [EvOpen] ++ t
         ++ match open device with
            | Ok _ => [EvClose]
            | Err _ => []
            end
         ++ post)
    /\ forallb (body_event false) t = true
    /\ forallb is_plain_print pre = true
    /\ forallb is_plain_print post = true.
Proof.
  intros Hfind. unfold run.
  destruct (arg_inspect args) eqn:Hinspect.
  - rewrite (main_inspect _ _ _ _ Hfind Hinspect).
    destruct (inspect_reports_shape Z device
                (World (opened module_init) (verbose module_init)
                   (trace module_init ++ found_lines device)))
      as (t & -> & Ht).
    exists (found_lines device), t, [].
    split; [|repeat split; assumption].
    unfold handle_open_at_exit. destruct (open device); reflexivity.
  - destruct (main_set_color _ _ _ module_init Hfind Hinspect)
      as (success & w2 & Hcall & ->).
    destruct (set_color_shape Z device (arg_r args) (arg_g args) (arg_b args)
                (at_set_color_call device args module_init))
      as (success' & t & Hrun & Ht).
    rewrite Hrun in Hcall. injection Hcall as -> <-.
    exists (found_lines device
            ++ [EvPrint (LnTrying (arg_r args) (arg_g args) (arg_b args))]),
      t, [EvPrint (if success then LnConfigured else LnFailed)].
    split; [|repeat split; try assumption; now destruct success].
    unfold handle_open_at_exit. destruct (open device).
    + unfold emit, found_lines. cbn. now rewrite <- ?app_assoc.
    + unfold emit, found_lines. cbn. now rewrite <- ?app_assoc.
Qed.

Lemma plain_print_counts t :
  forallb is_plain_print t = true ->
  opens t = 0%nat /\ closes t = 0%nat /\ sends t = [].
Proof.
  induction t as [|ev t IH]; [repeat split|].
  cbn [forallb]. intros [Hev Ht]%andb_prop.
  destruct (IH Ht) as (Ho & Hc & Hs).
  change (ev :: t) with ([ev] ++ t).
  rewrite opens_app, closes_app, sends_app, Ho, Hc, Hs.
  destruct ev; try discriminate; repeat split.
Qed.

(** A run opens at most one device and closes what it opened: with no
    matching device there is no [open()] and no [close()]; with one,
    [open()] is called once, on it, and [close()] once if that [open()]
    went through and not at all if it raised.  No handle is open when the
    process exits. *)
Theorem run_opens_and_closes_one_device all_devices args :
  opened (snd (run all_devices args)) = false
  /\ match List.find is_g19 all_devices with
     | None =>
         opens (trace (snd (run all_devices args))) = 0%nat
         /\ closes (trace (snd (run all_devices args))) = 0%nat
     | Some device =>
         opens (trace (snd (run all_devices args))) = 1%nat
         /\ closes (trace (snd (run all_devices args)))
            = match open device with
              | Ok _ => 1%nat
              | Err _ => 0%nat
              end
     end.
Proof.
  destruct (List.find is_g19 all_devices) as [device|] eqn:Hfind.
  2:{ unfold run. rewrite (main_not_found _ _ _ Hfind). repeat split. }
  destruct (run_shape _ args _ Hfind) as (pre & t & post & -> & Ht & Hpre & Hpost).
  apply plain_print_counts in Hpre as (Hpo & Hpc & _).
  apply plain_print_counts in Hpost as (Hqo & Hqc & _).
  split; [reflexivity|]. rewrite trace_World.
  rewrite !opens_app, !closes_app.
  rewrite (body_opens _ _ Ht), (body_closes _ _ Ht), Hpo, Hpc, Hqo, Hqc.
  destruct (open device); split; reflexivity.
Qed.

(** * More of the search loop *)

(** The search loop of [set_color] stops at the first feature report
    with identifier 7: the report it yields has identifier 7 and no
    report before it has; reports after it, other reports with
    identifier 7 included, play no part.  It yields nothing exactly when
    no report has identifier 7. *)
Theorem search_report_first_match reports :
  match search_report reports None with
  | Some target =>
      report_id target = LIGHTING_REPORT_ID
      /\ exists before after,
           reports = before ++ target :: after
           /\ Forall (fun report => report_id report <> LIGHTING_REPORT_ID)
                before
  | None =>
      Forall (fun report => report_id report <> LIGHTING_REPORT_ID) reports
  end.
Proof.
  induction reports as [|report rest IH]; cbn [search_report].
  - constructor.
  - destruct (report_id report =? LIGHTING_REPORT_ID) eqn:Hid.
    + apply Z.eqb_eq in Hid. split; [assumption|].
      exists [], rest. split; [reflexivity|constructor].
    + apply Z.eqb_neq in Hid.
      destruct (search_report rest None) as [target|].
      * destruct IH as (Ht & before & after & -> & Hbefore).
        split; [assumption|].
        exists (report :: before), after. split; [reflexivity|].
        now constructor.
      * now constructor.
Qed.
